(** * checkoutMCP: the tokenizer and the payment processor

  A shallow embedding of [tokenizer.py] and [payment_processor.py].

  Python objects live on a heap: the two services keep dictionaries from
  identifiers to references, hand these references out to their callers and
  update the objects they point to in place.  Dictionaries keep insertion
  order, as Python's do.  Amounts are IEEE-754 binary64 numbers, as Python's
  [float].  A [str] is a [string], its characters the code points below 256.
  Readings of the clock, of [secrets] and of [random] are inputs of the
  operation that performs them; [hashlib] and the conversions between
  [datetime] and text are parameters. *)

From Stdlib Require Import ZArith String Ascii List Floats Lia Bool.
From stdpp Require Import base option list strings relations.

Set Warnings "-inexact-float,-register-all".
Set Default Proof Using "Type".

(** ** Python values, dictionaries and the heap *)

Module Py.

(** [class PaymentStatus(str, Enum)] *)
Inductive PaymentStatus := SUCCESS | FAILED | PENDING.

(** The [str] value of a member. *)
Definition PaymentStatus_value (s : PaymentStatus) : string :=
  match s with
  | SUCCESS => "success"
  | FAILED => "failed"
  | PENDING => "pending"
  end.

(** A [dict] with [str] keys: an association list in insertion order,
    every key at most once. *)
Abbreviation dict V := (list (string * V)) (only parsing).

Inductive value :=
| VNone
| VBool (b : bool)
| VInt (n : Z)
| VFloat (x : float)
| VStr (s : string)
| VStatus (s : PaymentStatus)
| VDict (d : list (string * value)).

(** [d.get(k)] *)
Fixpoint dict_get {V} (k : string) (d : dict V) : option V :=
  match d with
  | [] => None
  | (k', v) :: d' => if String.eqb k' k then Some v else dict_get k d'
  end.

(** [d[k] = v]: an existing key keeps its position, a new key goes last. *)
Fixpoint dict_set {V} (k : string) (v : V) (d : dict V) : dict V :=
  match d with
  | [] => [(k, v)]
  | (k', v') :: d' =>
      if String.eqb k' k then (k, v) :: d' else (k', v') :: dict_set k v d'
  end.

(** [d.values()] *)
Definition dict_values {V} (d : dict V) : list V := map snd d.

(** Truth value of an object ([if x], [not x]). *)
Definition truthy (v : value) : bool :=
  match v with
  | VNone => false
  | VBool b => b
  | VInt n => negb (n =? 0)%Z
  | VFloat x => negb (x =? 0)%float
  | VStr s => negb (String.eqb s "")
  | VStatus s => negb (String.eqb (PaymentStatus_value s) "")
  | VDict d => match d with [] => false | _ => true end
  end.

(** [v == s] for a [str] s.  A member of [PaymentStatus] is a [str] and
    compares as its value. *)
Definition eq_str (v : value) (s : string) : bool :=
  match v with
  | VStr t => String.eqb t s
  | VStatus st => String.eqb (PaymentStatus_value st) s
  | _ => false
  end.

(** [v == m] for a member m of [PaymentStatus]. *)
Definition eq_status (v : value) (m : PaymentStatus) : bool :=
  eq_str v (PaymentStatus_value m).

Inductive exception :=
| KeyError (key : string)
| TypeError
| ValueError
| BadReference.  (* a reference to no object: no Python run reaches it *)

Inductive result (A : Type) :=
| Ok (a : A)
| Raise (e : exception).
Arguments Ok {A} a.
Arguments Raise {A} e.

#[export] Instance result_ret : MRet result := fun A a => Ok a.
#[export] Instance result_bind : MBind result := fun A B f m =>
  match m with
  | Ok a => f a
  | Raise e => Raise e
  end.

(** [d[k]] *)
Definition getitem {V} (d : dict V) (k : string) : result V :=
  match dict_get k d with
  | Some v => Ok v
  | None => Raise (KeyError k)
  end.

(** References and the heap of [dict] objects. *)
Abbreviation loc := nat (only parsing).
Abbreviation heap := (list (dict value)) (only parsing).

(** A new object. *)
Definition alloc (h : heap) (d : dict value) : loc * heap :=
  (length h, h ++ [d]).

Definition deref (h : heap) (l : loc) : result (dict value) :=
  match h !! l with
  | Some d => Ok d
  | None => Raise BadReference
  end.

(** [obj[k] = v] on the object behind a reference. *)
Definition setitem (h : heap) (l : loc) (k : string) (v : value) : heap :=
  match h !! l with
  | Some d => <[l := dict_set k v d]> h
  | None => h
  end.

(** [Optional[str]] as a value. *)
Definition of_optional_str (s : option string) : value :=
  match s with
  | Some s => VStr s
  | None => VNone
  end.

End Py.
Export Py.

(** ** payment_processor.py *)

Module payment_processor.

(** [class PaymentProcessor]: [self.transactions]. *)
Record PaymentProcessor := { transactions : dict loc }.

Definition __init__ : PaymentProcessor := {| transactions := [] |}.

(** What one call of [_generate_transaction_id] reads from outside:
    [datetime.utcnow().strftime("%Y%m%d%H%M%S")] and
    [secrets.token_hex(8)]. *)
Record id_source := { timestamp : string; random_part : string }.

Definition _generate_transaction_id (src : id_source) : string :=
  "txn_" +:+ timestamp src +:+ "_" +:+ random_part src.

(** [outcome] is the value [random.random()] returns; it is read only when
    no special amount applies. *)
Definition _simulate_processing (amount : float) (outcome : float)
  : PaymentStatus * string :=
  if (amount =? 0.01)%float then (FAILED, "Insufficient funds")
  else if (amount =? 0.02)%float then (FAILED, "Card declined")
  else if (amount =? 0.03)%float then (PENDING, "Payment pending verification")
  else if (10000 <=? amount)%float then
    (PENDING, "Large transaction - manual review required")
  else if (outcome <? 0.90)%float then (SUCCESS, "Payment processed successfully")
  else if (outcome <? 0.95)%float then (FAILED, "Card declined by issuer")
  else (PENDING, "Payment under review").

(** [token_data.get(k) if token_data else placeholder] *)
Definition token_field (token_data : option (dict value)) (k : string)
    (placeholder : string) : value :=
  match token_data with
  | Some d =>
      match d with
      | [] => VStr placeholder
      | _ :: _ => default VNone (dict_get k d)
      end
  | None => VStr placeholder
  end.

(** [token_data] is read and not changed: it is passed as the content of
    the dictionary the caller holds.  [processed_at] is the text of
    [datetime.utcnow().isoformat()].  Returns the reference to the new
    record, which is the stored one. *)
Definition process_payment (self : PaymentProcessor) (h : heap)
    (token : string) (amount : float) (currency customer_id : string)
    (description : option string) (token_data : option (dict value))
    (src : id_source) (outcome : float) (processed_at : string)
  : loc * PaymentProcessor * heap :=
  let transaction_id := _generate_transaction_id src in
  let '(status, message) := _simulate_processing amount outcome in
  let transaction :=
    [ ("transaction_id", VStr transaction_id);
      ("token", VStr token);
      ("amount", VFloat amount);
      ("currency", VStr currency);
      ("customer_id", VStr customer_id);
      ("description", of_optional_str description);
      ("status", VStatus status);
      ("message", VStr message);
      ("processed_at", VStr processed_at);
      ("card_info",
        VDict [ ("last_four", token_field token_data "last_four_digits" "XXXX");
                ("card_type", token_field token_data "card_type" "Unknown") ]) ] in
  let '(l, h') := alloc h transaction in
  (l, {| transactions := dict_set transaction_id l (transactions self) |}, h').

Definition get_transaction (self : PaymentProcessor) (transaction_id : string)
  : option loc :=
  dict_get transaction_id (transactions self).

(** The comprehension [tx for tx in values if tx["customer_id"] == customer_id]. *)
Fixpoint select_customer (h : heap) (customer_id : string) (values : list loc)
  : result (list loc) :=
  match values with
  | [] => Ok []
  | tx :: rest =>
      d ← deref h tx;
      c ← getitem d "customer_id";
      found ← select_customer h customer_id rest;
      Ok (if eq_str c customer_id then tx :: found else found)
  end.

Definition get_customer_transactions (self : PaymentProcessor) (h : heap)
    (customer_id : string) : result (list loc) :=
  select_customer h customer_id (dict_values (transactions self)).

Definition not_refundable : dict value :=
  [ ("success", VBool false);
    ("message", VStr "Only successful transactions can be refunded") ].

Definition refund_transaction (self : PaymentProcessor) (h : heap)
    (transaction_id : string) (src : id_source) (processed_at : string)
  : result (option loc * PaymentProcessor * heap) :=
  match dict_get transaction_id (transactions self) with
  | None => Ok (None, self, h)
  | Some transaction =>
      d ← deref h transaction;
      match d with
      | [] => Ok (None, self, h)
      | _ :: _ =>
          status ← getitem d "status";
          if negb (eq_status status SUCCESS) then
            let '(r, h') := alloc h not_refundable in
            Ok (Some r, self, h')
          else
            let refund_id := _generate_transaction_id src in
            amount ← getitem d "amount";
            currency ← getitem d "currency";
            customer_id ← getitem d "customer_id";
            let refund :=
              [ ("refund_id", VStr refund_id);
                ("original_transaction_id", VStr transaction_id);
                ("amount", amount);
                ("currency", currency);
                ("customer_id", customer_id);
                ("status", VStatus SUCCESS);
                ("message", VStr "Refund processed successfully");
                ("processed_at", VStr processed_at) ] in
            let '(r, h1) := alloc h refund in
            let self' :=
              {| transactions := dict_set refund_id r (transactions self) |} in
            let h2 := setitem h1 transaction "refunded" (VBool true) in
            let h3 := setitem h2 transaction "refund_id" (VStr refund_id) in
            Ok (Some r, self', h3)
      end
  end.

End payment_processor.
Export payment_processor.

(** ** The regular expressions of tokenizer.py *)

Module re.

(** An item of a character class [[...]]. *)
Inductive class_item :=
| CChar (c : ascii)            (* a character *)
| CRange (lo hi : ascii)       (* lo-hi *)
| CSpace.                      (* \s *)

Inductive regex :=
| Bol                          (* ^ *)
| Chr (c : ascii)              (* a literal character *)
| Class (items : list class_item)
| Cat (r1 r2 : regex)
| Alt (r1 r2 : regex).         (* r1|r2 *)

(** [\s] on a [str] pattern: the code points below 256 for which
    [str.isspace] holds. *)
Definition is_space (c : ascii) : bool :=
  let n := nat_of_ascii c in
  ((9 <=? n) && (n <=? 13)) || ((28 <=? n) && (n <=? 32))
  || (n =? 133) || (n =? 160).

Definition item_mem (i : class_item) (c : ascii) : bool :=
  match i with
  | CChar c' => Ascii.eqb c' c
  | CRange lo hi =>
      (nat_of_ascii lo <=? nat_of_ascii c) && (nat_of_ascii c <=? nat_of_ascii hi)
  | CSpace => is_space c
  end.

Definition class_mem (items : list class_item) (c : ascii) : bool :=
  existsb (fun i => item_mem i c) items.

(** All the ways [r] matches at position [pos] of the subject, of which [s]
    is what is left: each result is the position and the rest after a match. *)
Fixpoint match_at (r : regex) (pos : nat) (s : string) : list (nat * string) :=
  match r with
  | Bol => if pos =? 0 then [(pos, s)] else []
  | Chr c =>
      match s with
      | String c' s' => if Ascii.eqb c c' then [(S pos, s')] else []
      | EmptyString => []
      end
  | Class items =>
      match s with
      | String c' s' => if class_mem items c' then [(S pos, s')] else []
      | EmptyString => []
      end
  | Cat r1 r2 =>
      flat_map (fun '(pos', s') => match_at r2 pos' s') (match_at r1 pos s)
  | Alt r1 r2 => match_at r1 pos s ++ match_at r2 pos s
  end.

(** [re.match(r, s)] as a truth value: a match at the start of [s]. *)
Definition _match (r : regex) (s : string) : bool :=
  match match_at r 0 s with
  | [] => false
  | _ :: _ => true
  end.

(** [re.sub(r, repl, s)] for a pattern that is one character class. *)
Fixpoint sub_class (items : list class_item) (repl : string) (s : string) : string :=
  match s with
  | EmptyString => EmptyString
  | String c s' =>
      (if class_mem items c then repl else String c EmptyString)
      +:+ sub_class items repl s'
  end.

End re.

(** ** tokenizer.py *)

Module tokenizer.

(** Naive UTC instants, in microseconds. *)
Definition datetime := Z.

(** [timedelta(hours=n)] *)
Definition timedelta_hours (n : Z) : Z := (n * 3600 * 1000000)%Z.

(** [class PaymentTokenizer]: [self.tokens]. *)
Record PaymentTokenizer := { tokens : dict loc }.

Definition __init__ : PaymentTokenizer := {| tokens := [] |}.

(** What one call of [tokenize_card] reads from outside: [secrets.token_hex(16)]
    and the clock, three times. *)
Record entropy := {
  random_data : string;
  now_token : datetime;      (* in _generate_token *)
  now_expiry : datetime;     (* for expires_at *)
  now_created : datetime     (* for created_at *)
}.

(** [s[:n]] *)
Definition str_take (n : nat) (s : string) : string := String.substring 0 n s.

(** [s[-n:]] for n > 0 *)
Definition str_last (n : nat) (s : string) : string :=
  String.substring (String.length s - n) n s.

(** r"[\s-]" *)
Definition spaces_or_dash : list re.class_item := [re.CSpace; re.CChar "-"].

Definition clean (card_number : string) : string :=
  re.sub_class spaces_or_dash "" card_number.

(** r"^4", r"^5[1-5]", r"^3[47]", r"^6(?:011|5)" *)
Definition visa_re : re.regex := re.Cat re.Bol (re.Chr "4").
Definition mastercard_re : re.regex :=
  re.Cat re.Bol (re.Cat (re.Chr "5") (re.Class [re.CRange "1" "5"])).
Definition amex_re : re.regex :=
  re.Cat re.Bol (re.Cat (re.Chr "3") (re.Class [re.CChar "4"; re.CChar "7"])).
Definition discover_re : re.regex :=
  re.Cat re.Bol
    (re.Cat (re.Chr "6")
       (re.Alt (re.Cat (re.Chr "0") (re.Cat (re.Chr "1") (re.Chr "1")))
               (re.Chr "5"))).

Definition _identify_card_type (card_number : string) : string :=
  let clean_number := clean card_number in
  if re._match visa_re clean_number then "Visa"
  else if re._match mastercard_re clean_number then "Mastercard"
  else if re._match amex_re clean_number then "American Express"
  else if re._match discover_re clean_number then "Discover"
  else "Unknown".

Section Library.

(** [hashlib.sha256(s.encode()).hexdigest()], [datetime.isoformat] and
    [datetime.fromisoformat] ([None] where it raises [ValueError]). *)
Variable sha256_hexdigest : string -> string.
Variable isoformat : datetime -> string.
Variable fromisoformat : string -> option datetime.

Definition _generate_token (card_number : string) (e : entropy) : string :=
  let timestamp := isoformat (now_token e) in
  let data := card_number +:+ ":" +:+ random_data e +:+ ":" +:+ timestamp in
  let token_hash := sha256_hexdigest data in
  "tok_" +:+ str_take 32 token_hash.

(** Returns the new dictionary of token information, which is no stored
    object. *)
Definition tokenize_card (self : PaymentTokenizer) (h : heap)
    (card_number card_holder : string) (expiry_month expiry_year : Z)
    (cvv : string) (e : entropy)
  : dict value * PaymentTokenizer * heap :=
  let token := _generate_token card_number e in
  let card_type := _identify_card_type card_number in
  let last_four := str_last 4 card_number in
  let expires_at := (now_expiry e + timedelta_hours 24)%Z in
  let token_data :=
    [ ("token", VStr token);
      ("card_number_hash", VStr (sha256_hexdigest card_number));
      ("last_four_digits", VStr last_four);
      ("card_holder", VStr card_holder);
      ("expiry_month", VInt expiry_month);
      ("expiry_year", VInt expiry_year);
      ("card_type", VStr card_type);
      ("expires_at", VStr (isoformat expires_at));
      ("created_at", VStr (isoformat (now_created e)));
      ("is_valid", VBool true) ] in
  let '(l, h') := alloc h token_data in
  ([ ("token", VStr token);
     ("last_four_digits", VStr last_four);
     ("card_type", VStr card_type);
     ("expires_at", VStr (isoformat expires_at)) ],
   {| tokens := dict_set token l (tokens self) |}, h').

(** [datetime.fromisoformat(v)] *)
Definition parse_datetime (v : value) : result datetime :=
  match v with
  | VStr s =>
      match fromisoformat s with
      | Some t => Ok t
      | None => Raise ValueError
      end
  | VStatus s =>
      match fromisoformat (PaymentStatus_value s) with
      | Some t => Ok t
      | None => Raise ValueError
      end
  | _ => Raise TypeError
  end.

(** [utcnow] is the clock at the expiry check; it is read only when the
    check is reached. *)
Definition validate_token (self : PaymentTokenizer) (h : heap) (token : string)
    (utcnow : datetime) : result (option loc * heap) :=
  match dict_get token (tokens self) with
  | None => Ok (None, h)
  | Some l =>
      token_data ← deref h l;
      if negb (truthy (default (VBool false) (dict_get "is_valid" token_data)))
      then Ok (None, h)
      else
        text ← getitem token_data "expires_at";
        expires_at ← parse_datetime text;
        if (expires_at <? utcnow)%Z
        then Ok (None, setitem h l "is_valid" (VBool false))
        else Ok (Some l, h)
  end.

Definition get_token_info (self : PaymentTokenizer) (token : string) : option loc :=
  dict_get token (tokens self).

End Library.

End tokenizer.
Export tokenizer.

(** ** main.py: what the refund route makes of the processor's answer *)

Module main.

Inductive refund_reply :=
| NotFound                       (* 404 "Transaction not found" *)
| BadRequest (detail : value)    (* 400 *)
| Refund (refund : loc).         (* the refund, as the response body *)

(** [refund] is what [processor.refund_transaction] returned. *)
Definition refund_transaction_reply (h : heap) (refund : option loc)
  : result refund_reply :=
  match refund with
  | None => Ok NotFound
  | Some r =>
      d ← deref h r;
      match d with
      | [] => Ok NotFound
      | _ :: _ =>
          if negb (truthy (default (VBool true) (dict_get "success" d)))
          then Ok (BadRequest (default (VStr "Refund failed") (dict_get "message" d)))
          else Ok (Refund r)
      end
  end.

(** What a route answers: a response with its status code and body, or an
    [HTTPException].  The detail of an exception is a text, or a text
    followed by [str(e)] of the exception caught. *)
Inductive detail :=
| Text (s : string)
| Failure (s : string) (e : exception).

Inductive reply (A : Type) :=
| Response (status_code : nat) (body : A)
| HTTPException (status_code : nat) (d : detail).
Arguments Response {A} status_code body.
Arguments HTTPException {A} status_code d.

(** [class PaymentRequest] of models.py, validated. *)
Record PaymentRequest := {
  token : string;
  amount : float;
  currency : string;
  description : option string;
  customer_id : string
}.

(** The body of the route, within its [try]: the answer and the state it
    leaves, also when it raises. *)
Definition process_payment_try (fromisoformat : string -> option datetime)
    (tk : PaymentTokenizer) (pr : PaymentProcessor) (h : heap)
    (request : PaymentRequest) (utcnow : datetime) (src : id_source)
    (outcome : float) (processed_at : string)
  : result (reply (dict value)) * PaymentProcessor * heap :=
  match validate_token fromisoformat tk h (token request) utcnow with
  | Raise e => (Raise e, pr, h)
  | Ok (token_data, h1) =>
      let invalid := (Ok (HTTPException 401 (Text "Invalid or expired token")), pr, h1) in
      match token_data with
      | None => invalid
      | Some l =>
          match h1 !! l with
          | None => (Raise BadReference, pr, h1)
          | Some [] => invalid
          | Some ((_ :: _) as d) =>
              let '(tx, pr', h2) :=
                process_payment pr h1 (token request) (amount request)
                  (currency request) (customer_id request) (description request)
                  (Some d) src outcome processed_at in
              (transaction ← deref h2 tx;
               transaction_id ← getitem transaction "transaction_id";
               status ← getitem transaction "status";
               amount ← getitem transaction "amount";
               currency ← getitem transaction "currency";
               customer_id ← getitem transaction "customer_id";
               message ← getitem transaction "message";
               processed_at ← getitem transaction "processed_at";
               Ok (Response 201
                     [ ("transaction_id", transaction_id);
                       ("status", status);
                       ("amount", amount);
                       ("currency", currency);
                       ("token", VStr (token request));
                       ("customer_id", customer_id);
                       ("message", message);
                       ("processed_at", processed_at) ]),
               pr', h2)
          end
      end
  end.

(** [POST /api/v1/payments]: an [HTTPException] goes through, every other
    exception becomes a 400. *)
Definition process_payment (fromisoformat : string -> option datetime)
    (tk : PaymentTokenizer) (pr : PaymentProcessor) (h : heap)
    (request : PaymentRequest) (utcnow : datetime) (src : id_source)
    (outcome : float) (processed_at : string)
  : reply (dict value) * PaymentProcessor * heap :=
  let '(r, pr', h') :=
    process_payment_try fromisoformat tk pr h request utcnow src outcome
      processed_at in
  (match r with
   | Ok answer => answer
   | Raise e => HTTPException 400 (Failure "Payment processing failed: " e)
   end, pr', h').

(** [GET /api/v1/tokens/{token}]: no [try] here, an exception leaves the
    route. *)
Definition get_token_info (tk : PaymentTokenizer) (h : heap) (token : string)
  : result (reply (dict value)) :=
  match tokenizer.get_token_info tk token with
  | None => Ok (HTTPException 404 (Text "Token not found"))
  | Some l =>
      token_info ← deref h l;
      match token_info with
      | [] => Ok (HTTPException 404 (Text "Token not found"))
      | _ :: _ =>
          token ← getitem token_info "token";
          last_four_digits ← getitem token_info "last_four_digits";
          card_type ← getitem token_info "card_type";
          expires_at ← getitem token_info "expires_at";
          created_at ← getitem token_info "created_at";
          is_valid ← getitem token_info "is_valid";
          Ok (Response 200
                [ ("token", token);
                  ("last_four_digits", last_four_digits);
                  ("card_type", card_type);
                  ("expires_at", expires_at);
                  ("created_at", created_at);
                  ("is_valid", is_valid) ])
      end
  end.

End main.

(** ** models.py: the validator of [PaymentCard.card_number] *)

Module models.

(** [str.isdigit] on one code point below 256: the decimal digits and the
    superscripts two, three and one. *)
Definition isdigit_char (c : ascii) : bool :=
  let n := nat_of_ascii c in
  ((48 <=? n) && (n <=? 57)) || (n =? 178) || (n =? 179) || (n =? 185).

Fixpoint all_digits (s : string) : bool :=
  match s with
  | EmptyString => true
  | String c s' => isdigit_char c && all_digits s'
  end.

(** [s.isdigit()]: every character is a digit and there is at least one. *)
Definition isdigit (s : string) : bool :=
  match s with
  | EmptyString => false
  | String _ _ => all_digits s
  end.

(** The value the tokenizer is given is the one returned here. *)
Definition validate_card_number (v : string) : result string :=
  let clean_number := re.sub_class [re.CSpace; re.CChar "-"] "" v in
  if negb (isdigit clean_number) then Raise ValueError
  else if negb ((String.length clean_number =? 15)
                || (String.length clean_number =? 16)) then Raise ValueError
  else Ok clean_number.

End models.

(** * Vocabulary of the properties *)

(** The status and the message of a record. *)
Definition outcome_of (d : dict value) : option value * option value :=
  (dict_get "status" d, dict_get "message" d).

Definition is_outcome (d : dict value) (s : PaymentStatus) (m : string) : Prop :=
  outcome_of d = (Some (VStatus s), Some (VStr m)).

(** The record a refund of [transaction_id] creates from the fields of the
    original. *)
Definition refund_record (refund_id transaction_id : string)
    (amount currency customer_id : value) (processed_at : string) : dict value :=
  [ ("refund_id", VStr refund_id);
    ("original_transaction_id", VStr transaction_id);
    ("amount", amount);
    ("currency", currency);
    ("customer_id", customer_id);
    ("status", VStatus SUCCESS);
    ("message", VStr "Refund processed successfully");
    ("processed_at", VStr processed_at) ].

(** The original after a refund: [refunded] and [refund_id] set. *)
Definition mark_refunded (refund_id : string) (d : dict value) : dict value :=
  dict_set "refund_id" (VStr refund_id) (dict_set "refunded" (VBool true) d).

(** Two records agree on every field but the refund linkage. *)
Definition same_but_refund_link (d d' : dict value) : Prop :=
  forall k, k <> "refunded" -> k <> "refund_id" -> dict_get k d' = dict_get k d.

(** A stored record has the fields the processor reads, a [str] as customer
    and a member of [PaymentStatus] as status. *)
Definition record_ok (d : dict value) : bool :=
  match dict_get "customer_id" d, dict_get "status" d,
        dict_get "amount" d, dict_get "currency" d with
  | Some (VStr _), Some (VStatus _), Some _, Some _ => true
  | _, _, _, _ => false
  end.

(** Every stored reference leads to such a record. *)
Definition store_ok (self : PaymentProcessor) (h : heap) : bool :=
  forallb (fun tx => match h !! tx with Some d => record_ok d | None => false end)
    (dict_values (transactions self)).

(** The record behind [tx] is of customer [customer_id]. *)
Definition of_customer (h : heap) (customer_id : string) (tx : loc) : bool :=
  match h !! tx with
  | Some d =>
      match dict_get "customer_id" d with
      | Some c => eq_str c customer_id
      | None => false
      end
  | None => false
  end.

(** One state-changing call of the processor. *)
Inductive step : PaymentProcessor * heap -> PaymentProcessor * heap -> Prop :=
| step_process_payment self h token amount currency customer_id description
    token_data src u processed_at tx self' h' :
    process_payment self h token amount currency customer_id description
      token_data src u processed_at = (tx, self', h') ->
    step (self, h) (self', h')
| step_refund_transaction self h transaction_id src processed_at r self' h' :
    refund_transaction self h transaction_id src processed_at
      = Ok (r, self', h') ->
    step (self, h) (self', h').

(** No whitespace and no dash in [s]. *)
Fixpoint no_separator (s : string) : bool :=
  match s with
  | EmptyString => true
  | String c s' => negb (re.class_mem spaces_or_dash c) && no_separator s'
  end.

(** The classification as the specification words it: by the prefix of the
    number, in this order. *)
Definition starts_with_any (prefixes : list string) (number : string) : bool :=
  existsb (fun p => String.prefix p number) prefixes.

Definition card_type_by_prefix (number : string) : string :=
  if String.prefix "4" number then "Visa"
  else if starts_with_any ["51"; "52"; "53"; "54"; "55"] number then "Mastercard"
  else if starts_with_any ["34"; "37"] number then "American Express"
  else if starts_with_any ["6011"; "65"] number then "Discover"
  else "Unknown".

(** Sample readings of the clock and of [secrets], for the examples. *)
Definition src1 : id_source :=
  {| timestamp := "20240101120000"; random_part := "00000000000000a1" |}.
Definition src2 : id_source :=
  {| timestamp := "20240101120001"; random_part := "00000000000000b2" |}.
Definition src3 : id_source :=
  {| timestamp := "20240101120002"; random_part := "00000000000000c3" |}.

(** Sample states: a payment that succeeds and one that is declined. *)
Definition paid : loc * PaymentProcessor * heap :=
  process_payment payment_processor.__init__ [] "tok_1" 25%float "USD" "cust_1"
    None None src1 0.5%float "2024-01-01T12:00:00".

Definition declined : loc * PaymentProcessor * heap :=
  process_payment payment_processor.__init__ [] "tok_1" 0.01%float "USD" "cust_1"
    None None src1 0.5%float "2024-01-01T12:00:00".

(** The sample payment, refunded. *)
Definition paid_refunded : PaymentProcessor * heap :=
  match refund_transaction paid.1.2 paid.2 "txn_20240101120000_00000000000000a1"
          src2 "2024-01-01T12:00:01" with
  | Ok (_, self', h') => (self', h')
  | Raise _ => (paid.1.2, paid.2)
  end.

(** Stand-ins for the library functions of the tokenizer, for the examples:
    the digest is not computed, and every text reads as one instant. *)
Definition sample_hexdigest (s : string) : string :=
  "9f86d081884c7d659a2feaa0c55ad015a3bf4f1b2b0b822cd15d6c15b0f00a08".
Definition sample_isoformat (t : datetime) : string := "2024-01-02T12:00:00".
Definition sample_fromisoformat (s : string) : option datetime :=
  Some 86400000000%Z.

Definition sample_entropy : entropy :=
  {| random_data := "000102030405060708090a0b0c0d0e0f";
     now_token := 0%Z; now_expiry := 0%Z; now_created := 0%Z |}.

(** A card tokenized at instant 0. *)
Definition tokenized : dict value * PaymentTokenizer * heap :=
  tokenize_card sample_hexdigest sample_isoformat tokenizer.__init__ []
    "4532015112830366" "A. Holder" 12%Z 2030%Z "123" sample_entropy.


(** A record carries the refund linkage only as a refund leaves it: flagged
    [True], with the id of the refund, on a record whose status is success. *)
Definition refund_link_ok (d : dict value) : Prop :=
  dict_get "refunded" d = None \/
  (dict_get "refunded" d = Some (VBool true) /\
   (exists refund_id, dict_get "refund_id" d = Some (VStr refund_id)) /\
   exists status, dict_get "status" d = Some status /\
                  eq_status status SUCCESS = true).

(** The states the processor reaches from its initial one, on a heap of its
    own. *)
Definition reachable (s : PaymentProcessor * heap) : Prop :=
  rtc step (payment_processor.__init__, []) s.

(** A sample request for the payment route. *)
Definition sample_request : main.PaymentRequest :=
  {| main.token := "tok_9f86d081884c7d659a2feaa0c55ad015";
     main.amount := 99.99%float;
     main.currency := "USD";
     main.description := None;
     main.customer_id := "cust_1" |}.

(** * Properties *)

(** ** Comparison of binary64 numbers *)

Section Floats.

Local Open Scope float_scope.

Lemma SFcompare_Eq_finite (a : spec_float) s m e :
  SFcompare a (S754_finite s m e) = Some Eq -> a = S754_finite s m e.
Proof.
  destruct a as [sa|sa| |sa ma ea]; simpl; try (destruct sa; discriminate);
    try (destruct s; discriminate).
  destruct sa, s; try discriminate;
    destruct (Z.compare_spec ea e) as [->| |]; try discriminate;
    rewrite Pos.compare_cont_spec; simpl;
    destruct (Pos.compare_spec ma m) as [->| |]; simpl; try discriminate;
    reflexivity.
Qed.

Lemma SFcompare_antisym (a b : spec_float) c :
  SFcompare a b = Some c -> SFcompare b a = Some (CompOpp c).
Proof.
  destruct a as [sa|sa| |sa ma ea], b as [sb|sb| |sb mb eb]; simpl;
    try discriminate;
    try (destruct sa); try (destruct sb); simpl;
    try (intros [= <-]; reflexivity).
  all: rewrite (Z.compare_antisym ea eb);
    destruct (ea ?= eb)%Z; simpl; try (intros [= <-]; reflexivity);
    rewrite !Pos.compare_cont_spec; simpl;
    rewrite (Pos.compare_antisym ma mb);
    destruct (ma ?= mb)%positive; simpl; intros [= <-]; reflexivity.
Qed.

(** [x == c] for a finite non-zero constant pins [x] down. *)
Lemma eqb_finite (x c : float) s m e :
  Prim2SF c = S754_finite s m e -> (x =? c) = true -> Prim2SF x = Prim2SF c.
Proof.
  intros Hc. rewrite FloatAxioms.eqb_spec, Hc. unfold SFeqb.
  destruct (SFcompare (Prim2SF x) (S754_finite s m e)) as [[]|] eqn:E;
    try discriminate.
  intros _. now apply SFcompare_Eq_finite.
Qed.

Lemma eqb_finite_eqb (x c c' : float) s m e :
  Prim2SF c = S754_finite s m e -> (x =? c) = true -> (x =? c') = (c =? c').
Proof.
  intros Hc Hx. rewrite !FloatAxioms.eqb_spec.
  now rewrite (eqb_finite x c s m e Hc Hx).
Qed.

Lemma eqb_finite_leb (x c c' : float) s m e :
  Prim2SF c = S754_finite s m e -> (x =? c) = true -> (c' <=? x) = (c' <=? c).
Proof.
  intros Hc Hx. rewrite !FloatAxioms.leb_spec.
  now rewrite (eqb_finite x c s m e Hc Hx).
Qed.

(** [c <= x] excludes [x < c]. *)
Lemma leb_not_ltb (c x : float) : (c <=? x) = true -> (x <? c) = false.
Proof.
  rewrite FloatAxioms.leb_spec, FloatAxioms.ltb_spec. unfold SFleb, SFltb.
  destruct (SFcompare (Prim2SF c) (Prim2SF x)) as [o|] eqn:E; try discriminate.
  rewrite (SFcompare_antisym _ _ _ E). now destruct o.
Qed.

(** The two thresholds of the simulation are 0x1.ccccccccccccdp-1 and
    0x1.e666666666666p-1: at or above the second is not below the first. *)
Lemma leb_095_not_ltb_090 (x : float) : (0.95 <=? x) = true -> (x <? 0.90) = false.
Proof.
  intros H. apply leb_not_ltb. revert H.
  rewrite !FloatAxioms.leb_spec. unfold SFleb.
  change (Prim2SF 0.95) with (S754_finite false 8556839292003942 (-53)).
  change (Prim2SF 0.90) with (S754_finite false 8106479329266893 (-53)).
  destruct (Prim2SF x) as [s|s| |s m e]; cbn [SFcompare]; try exact (fun H => H).
  destruct s; try exact (fun H => H).
  destruct (-53 ?= e)%Z; try exact (fun H => H).
  rewrite !Pos.compare_cont_spec; cbn [Pos.switch_Eq].
  destruct (Pos.compare_spec 8556839292003942 m) as [E|E|E];
    try discriminate; intros _.
  - subst m. reflexivity.
  - assert (8106479329266893 < m)%positive as ->%Pos.compare_lt_iff; [|done].
    eapply Pos.lt_trans; [|exact E]. reflexivity.
Qed.

End Floats.

(** ** Dictionaries and the heap *)

Section Dict.

Context {V : Type}.
Implicit Types (d : dict V) (k : string) (v : V).

Lemma dict_get_set_eq k v d : dict_get k (dict_set k v d) = Some v.
Proof.
  induction d as [|[k' v'] d IH]; simpl.
  - now rewrite String.eqb_refl.
  - destruct (String.eqb k' k) eqn:E; simpl.
    + now rewrite String.eqb_refl.
    + now rewrite E.
Qed.

Lemma dict_get_set_ne k k' v d :
  k <> k' -> dict_get k' (dict_set k v d) = dict_get k' d.
Proof.
  intros Hne. induction d as [|[k0 v0] d IH]; simpl.
  - now apply String.eqb_neq in Hne as ->.
  - destruct (String.eqb k0 k) eqn:E; simpl.
    + apply String.eqb_eq in E as ->.
      now apply String.eqb_neq in Hne as ->.
    + now rewrite IH.
Qed.

(** A key that is not there goes last. *)
Lemma dict_set_fresh k v d : dict_get k d = None -> dict_set k v d = d ++ [(k, v)].
Proof.
  induction d as [|[k' v'] d IH]; simpl; [done|].
  destruct (String.eqb k' k); [done|]. intros H. now rewrite IH.
Qed.

Lemma dict_set_elem k v d kv :
  kv ∈ dict_set k v d -> kv = (k, v) \/ kv ∈ d.
Proof.
  induction d as [|[k' v'] d IH]; simpl.
  - intros ->%list_elem_of_singleton. now left.
  - destruct (String.eqb k' k).
    + intros [->|H]%elem_of_cons; [now left|]. right. now apply elem_of_cons; right.
    + intros [->|H]%elem_of_cons; [right; now apply elem_of_cons; left|].
      destruct (IH H) as [->|H']; [now left|]. right. now apply elem_of_cons; right.
Qed.

Lemma dict_get_elem k v d : dict_get k d = Some v -> (k, v) ∈ d.
Proof.
  induction d as [|[k' v'] d IH]; simpl; [done|].
  destruct (String.eqb k' k) eqn:E.
  - apply String.eqb_eq in E as ->. intros [= ->]. now apply elem_of_cons; left.
  - intros H. apply elem_of_cons; right. now apply IH.
Qed.

End Dict.

Section Heap.

Implicit Types (h : heap) (l : loc) (d : dict value).

Lemma deref_Some h l d : h !! l = Some d -> deref h l = Ok d.
Proof. unfold deref. now intros ->. Qed.

Lemma setitem_lookup_eq_insert h l k v d :
  h !! l = Some d -> setitem h l k v = <[l := dict_set k v d]> h.
Proof. intros H. unfold setitem. now rewrite H. Qed.

End Heap.

(** ** The outcome of a payment *)

Lemma process_payment_record self h token amount currency customer_id
    description token_data src u processed_at tx self' h' :
  process_payment self h token amount currency customer_id description
    token_data src u processed_at = (tx, self', h') ->
  exists d,
    h' !! tx = Some d /\
    tx = length h /\
    h' = h ++ [d] /\
    transactions self' =
      dict_set (_generate_transaction_id src) tx (transactions self) /\
    d = [ ("transaction_id", VStr (_generate_transaction_id src));
          ("token", VStr token);
          ("amount", VFloat amount);
          ("currency", VStr currency);
          ("customer_id", VStr customer_id);
          ("description", of_optional_str description);
          ("status", VStatus (_simulate_processing amount u).1);
          ("message", VStr (_simulate_processing amount u).2);
          ("processed_at", VStr processed_at);
          ("card_info",
            VDict [ ("last_four", token_field token_data "last_four_digits" "XXXX");
                    ("card_type", token_field token_data "card_type" "Unknown") ]) ].
Proof.
  unfold process_payment. destruct (_simulate_processing amount u) as [s m].
  unfold alloc. intros [= <- <- <-]. eexists. split; [|done].
  now apply list_lookup_middle.
Qed.

Section Simulation.

Local Open Scope float_scope.

Lemma special_amounts_exclusive (amount : float) :
  ((amount =? 0.02) = true -> (amount =? 0.01) = false) /\
  ((amount =? 0.03) = true -> (amount =? 0.01) = false /\ (amount =? 0.02) = false) /\
  ((10000 <=? amount) = true ->
     (amount =? 0.01) = false /\ (amount =? 0.02) = false /\ (amount =? 0.03) = false).
Proof.
  split; [|split].
  - intros H. now rewrite (eqb_finite_eqb amount 0.02 0.01 _ _ _ eq_refl H).
  - intros H.
    now rewrite (eqb_finite_eqb amount 0.03 0.01 _ _ _ eq_refl H),
      (eqb_finite_eqb amount 0.03 0.02 _ _ _ eq_refl H).
  - intros H. repeat split.
    + destruct (amount =? 0.01) eqn:E; [|done].
      now rewrite (eqb_finite_leb amount 0.01 10000 _ _ _ eq_refl E) in H.
    + destruct (amount =? 0.02) eqn:E; [|done].
      now rewrite (eqb_finite_leb amount 0.02 10000 _ _ _ eq_refl E) in H.
    + destruct (amount =? 0.03) eqn:E; [|done].
      now rewrite (eqb_finite_leb amount 0.03 10000 _ _ _ eq_refl E) in H.
Qed.

End Simulation.

Section Outcome.

Local Open Scope float_scope.

(** C1: the outcome of [process_payment] is decided by the amount first:
    exactly 0.01, 0.02, 0.03 and at least 10000 give their fixed status and
    message, whatever the random value, the token, the customer and the
    currency; for every other amount the random value [u] decides: below
    0.90 success, from 0.90 and below 0.95 failed, from 0.95 pending. *)
Theorem process_payment_outcome self h token amount currency customer_id
    description token_data src u processed_at tx self' h' :
  process_payment self h token amount currency customer_id description
    token_data src u processed_at = (tx, self', h') ->
  exists d,
    h' !! tx = Some d /\
    ((amount =? 0.01) = true -> is_outcome d FAILED "Insufficient funds") /\
    ((amount =? 0.02) = true -> is_outcome d FAILED "Card declined") /\
    ((amount =? 0.03) = true ->
       is_outcome d PENDING "Payment pending verification") /\
    ((10000 <=? amount) = true ->
       is_outcome d PENDING "Large transaction - manual review required") /\
    ((amount =? 0.01) = false -> (amount =? 0.02) = false ->
     (amount =? 0.03) = false -> (10000 <=? amount) = false ->
       ((u <? 0.90) = true ->
          is_outcome d SUCCESS "Payment processed successfully") /\
       ((0.90 <=? u) = true -> (u <? 0.95) = true ->
          is_outcome d FAILED "Card declined by issuer") /\
       ((0.95 <=? u) = true -> is_outcome d PENDING "Payment under review")).
Proof.
  intros (d & Hd & _ & _ & _ & Ed)%process_payment_record.
  exists d. split; [exact Hd|]. subst d. clear Hd.
  destruct (special_amounts_exclusive amount) as (E2 & E3 & E4).
  unfold is_outcome, outcome_of, _simulate_processing; cbn [dict_get String.eqb Ascii.eqb Bool.eqb fst snd].
  split_and!.
  - now intros ->.
  - intros H. now rewrite (E2 H), H.
  - intros H. destruct (E3 H) as [-> ->]. now rewrite H.
  - intros H. destruct (E4 H) as (-> & -> & ->). now rewrite H.
  - intros -> -> -> ->. split_and!.
    + now intros ->.
    + intros H1 H2. now rewrite (leb_not_ltb _ _ H1), H2.
    + intros H. now rewrite (leb_095_not_ltb_090 _ H), (leb_not_ltb _ _ H).
Qed.

Lemma process_payment_outcome_witness :
  exists d,
    [d] !! 0%nat = Some d /\
    is_outcome d FAILED "Card declined by issuer" /\
    get_transaction
      (process_payment payment_processor.__init__ [] "tok_1" 25 "USD" "cust_1" None None
         src1 0.92 "2024-01-01T12:00:00").1.2
      "txn_20240101120000_00000000000000a1" = Some 0%nat.
Proof.
  destruct (process_payment_outcome payment_processor.__init__ [] "tok_1" 25 "USD" "cust_1"
              None None src1 0.92 "2024-01-01T12:00:00" _ _ _ eq_refl)
    as (d & Hd & _ & _ & _ & _ & H).
  exists d. split; [|split].
  - injection Hd as <-. reflexivity.
  - now apply H.
  - reflexivity.
Defined.

End Outcome.

(** ** Refunds: the three answers *)

Section Refund.

Implicit Types (self : PaymentProcessor) (h : heap) (d : dict value).

Lemma refund_unknown self h transaction_id src processed_at :
  dict_get transaction_id (transactions self) = None ->
  refund_transaction self h transaction_id src processed_at = Ok (None, self, h).
Proof. unfold refund_transaction. now intros ->. Qed.

Lemma refund_not_success self h transaction_id src processed_at tx d status :
  dict_get transaction_id (transactions self) = Some tx ->
  h !! tx = Some d ->
  dict_get "status" d = Some status ->
  eq_status status SUCCESS = false ->
  refund_transaction self h transaction_id src processed_at
  = Ok (Some (length h), self, h ++ [not_refundable]).
Proof.
  intros Htx Hd Hs Hne. unfold refund_transaction, deref, getitem.
  rewrite Htx, Hd. cbn [mbind result_bind].
  destruct d as [|kv d]; [discriminate|].
  rewrite Hs. cbn [mbind result_bind]. now rewrite Hne.
Qed.

Lemma refund_success self h transaction_id src processed_at tx d status
    amount currency customer_id :
  dict_get transaction_id (transactions self) = Some tx ->
  h !! tx = Some d ->
  dict_get "status" d = Some status ->
  eq_status status SUCCESS = true ->
  dict_get "amount" d = Some amount ->
  dict_get "currency" d = Some currency ->
  dict_get "customer_id" d = Some customer_id ->
  let refund_id := _generate_transaction_id src in
  let refund :=
    refund_record refund_id transaction_id amount currency customer_id processed_at in
  refund_transaction self h transaction_id src processed_at
  = Ok (Some (length h),
        {| transactions := dict_set refund_id (length h) (transactions self) |},
        <[tx := mark_refunded refund_id d]> (h ++ [refund])).
Proof.
  intros Htx Hd Hs Heq Ha Hc Hcu refund_id refund.
  unfold refund_transaction, deref, getitem.
  rewrite Htx, Hd. cbn [mbind result_bind].
  destruct d as [|kv d]; [discriminate|].
  rewrite Hs. cbn [mbind result_bind]. rewrite Heq, Ha, Hc, Hcu.
  cbn [negb mbind result_bind alloc].
  fold refund_id. fold (refund_record refund_id transaction_id amount currency
    customer_id processed_at). fold refund.
  assert (Hlt : tx < length h) by now apply lookup_lt_Some in Hd.
  assert (H1 : (h ++ [refund]) !! tx = Some (kv :: d))
    by now apply lookup_app_l_Some.
  do 3 f_equal. unfold mark_refunded.
  rewrite (setitem_lookup_eq_insert _ _ _ _ _ H1).
  erewrite setitem_lookup_eq_insert.
  2:{ apply list_lookup_insert_eq. rewrite length_app. simpl. lia. }
  apply list_insert_insert_eq.
Qed.

End Refund.

Section RefundClaims.

Implicit Types (self : PaymentProcessor) (h : heap) (d : dict value).

Lemma mark_refunded_frame refund_id d : same_but_refund_link d (mark_refunded refund_id d).
Proof.
  intros k H1 H2. unfold mark_refunded.
  rewrite dict_get_set_ne by congruence. now rewrite dict_get_set_ne by congruence.
Qed.

Lemma mark_refunded_link refund_id d :
  dict_get "refunded" (mark_refunded refund_id d) = Some (VBool true) /\
  dict_get "refund_id" (mark_refunded refund_id d) = Some (VStr refund_id).
Proof.
  unfold mark_refunded. split.
  - rewrite dict_get_set_ne by discriminate. apply dict_get_set_eq.
  - apply dict_get_set_eq.
Qed.

(** C2: a refund of an unknown id answers [None] and changes nothing; a
    refund of a stored transaction whose status is not success answers a new
    dictionary with [success] false and the message "Only successful
    transactions can be refunded", leaves the store as it is and every
    object as it was; the caller tells the two answers apart. *)
Theorem refund_transaction_rejections self h transaction_id src processed_at :
  (get_transaction self transaction_id = None ->
     refund_transaction self h transaction_id src processed_at
       = Ok (None, self, h) /\
     main.refund_transaction_reply h None = Ok main.NotFound) /\
  (forall tx d status,
     get_transaction self transaction_id = Some tx ->
     h !! tx = Some d ->
     dict_get "status" d = Some status ->
     eq_status status SUCCESS = false ->
     exists r h',
       refund_transaction self h transaction_id src processed_at
         = Ok (Some r, self, h') /\
       h !! r = None /\
       h' !! r = Some not_refundable /\
       dict_get "success" not_refundable = Some (VBool false) /\
       dict_get "message" not_refundable
         = Some (VStr "Only successful transactions can be refunded") /\
       (forall l x, h !! l = Some x -> h' !! l = Some x) /\
       main.refund_transaction_reply h' (Some r)
         = Ok (main.BadRequest
                 (VStr "Only successful transactions can be refunded"))).
Proof.
  split.
  - intros H. split; [now apply refund_unknown|reflexivity].
  - intros tx d status Htx Hd Hs Hne.
    exists (length h), (h ++ [not_refundable]).
    assert (Hnew : (h ++ [not_refundable]) !! length h = Some not_refundable)
      by now apply list_lookup_middle.
    split_and!; try reflexivity.
    + now apply (refund_not_success _ _ _ _ _ tx d status).
    + now apply lookup_ge_None_2.
    + exact Hnew.
    + intros l x Hl. now apply lookup_app_l_Some.
    + unfold main.refund_transaction_reply. now rewrite (deref_Some _ _ _ Hnew).
Qed.

Lemma refund_transaction_rejections_witness :
  get_transaction declined.1.2 "txn_20240101120000_00000000000000a1" = Some 0 /\
  (exists r h',
     refund_transaction declined.1.2 declined.2
       "txn_20240101120000_00000000000000a1" src2 "2024-01-01T12:00:01"
     = Ok (Some r, declined.1.2, h') /\
     main.refund_transaction_reply h' (Some r)
     = Ok (main.BadRequest
             (VStr "Only successful transactions can be refunded"))) /\
  refund_transaction declined.1.2 declined.2 "txn_unknown" src2
    "2024-01-01T12:00:01"
  = Ok (None, declined.1.2, declined.2).
Proof.
  split; [reflexivity|]. split.
  - destruct (proj2 (refund_transaction_rejections declined.1.2 declined.2
                "txn_20240101120000_00000000000000a1" src2 "2024-01-01T12:00:01")
              0 _ (VStatus FAILED) eq_refl eq_refl eq_refl eq_refl)
      as (r & h' & Hr & _ & _ & _ & _ & _ & Hreply).
    exists r, h'. split; assumption.
  - exact (proj1 (proj1 (refund_transaction_rejections declined.1.2 declined.2
                    "txn_unknown" src2 "2024-01-01T12:00:01") eq_refl)).
Defined.

(** C3: a refund of a stored transaction whose status is success, refunded
    before or not, answers a new refund record with status success and the
    id of the original, stores it under the generated refund id and sets
    [refunded] and [refund_id] on the original in place.  With a refund id
    other than the id of the original, which a fresh id is, a second refund
    of the same transaction succeeds again, creates a second refund record
    next to the first and overwrites [refund_id] on the original. *)
Theorem refund_transaction_success_again self h transaction_id src processed_at
    tx d status amount currency customer_id :
  get_transaction self transaction_id = Some tx ->
  h !! tx = Some d ->
  dict_get "status" d = Some status ->
  eq_status status SUCCESS = true ->
  dict_get "amount" d = Some amount ->
  dict_get "currency" d = Some currency ->
  dict_get "customer_id" d = Some customer_id ->
  let refund_id := _generate_transaction_id src in
  exists r self' h' refund d',
    refund_transaction self h transaction_id src processed_at
      = Ok (Some r, self', h') /\
    h !! r = None /\
    h' !! r = Some refund /\
    dict_get "status" refund = Some (VStatus SUCCESS) /\
    dict_get "original_transaction_id" refund = Some (VStr transaction_id) /\
    get_transaction self' refund_id = Some r /\
    h' !! tx = Some d' /\
    dict_get "refunded" d' = Some (VBool true) /\
    dict_get "refund_id" d' = Some (VStr refund_id) /\
    (refund_id <> transaction_id ->
     forall src2 processed_at2,
     let refund_id2 := _generate_transaction_id src2 in
     exists r2 self'' h'' refund2 d'',
       refund_transaction self' h' transaction_id src2 processed_at2
         = Ok (Some r2, self'', h'') /\
       r2 <> r /\
       h'' !! r = Some refund /\
       h'' !! r2 = Some refund2 /\
       dict_get "status" refund2 = Some (VStatus SUCCESS) /\
       dict_get "original_transaction_id" refund2 = Some (VStr transaction_id) /\
       get_transaction self'' refund_id2 = Some r2 /\
       h'' !! tx = Some d'' /\
       dict_get "refunded" d'' = Some (VBool true) /\
       dict_get "refund_id" d'' = Some (VStr refund_id2)).
Proof.
  intros Htx Hd Hs Heq Ha Hc Hcu refund_id.
  pose proof (lookup_lt_Some _ _ _ Hd) as Hlt.
  set (refund := refund_record refund_id transaction_id amount currency
                   customer_id processed_at).
  set (h' := <[tx := mark_refunded refund_id d]> (h ++ [refund])).
  assert (Hr : h' !! length h = Some refund).
  { unfold h'. rewrite list_lookup_insert_ne by lia. now apply list_lookup_middle. }
  assert (Hd' : h' !! tx = Some (mark_refunded refund_id d)).
  { unfold h'. apply list_lookup_insert_eq. rewrite length_app. lia. }
  assert (Hlen : length h' = S (length h)).
  { unfold h'. rewrite length_insert, length_app. simpl. lia. }
  eexists (length h), _, h', refund, (mark_refunded refund_id d).
  split_and!; try reflexivity; try assumption.
  - now apply (refund_success _ _ _ _ _ tx d status).
  - now apply lookup_ge_None_2.
  - unfold get_transaction. apply dict_get_set_eq.
  - apply mark_refunded_link.
  - apply mark_refunded_link.
  - intros Hne src2 processed_at2 refund_id2.
    set (refund2 := refund_record refund_id2 transaction_id amount currency
                      customer_id processed_at2).
    eexists (length h'), _, _, refund2,
      (mark_refunded refund_id2 (mark_refunded refund_id d)).
    split_and!.
    + apply (refund_success _ _ _ _ _ tx (mark_refunded refund_id d) status);
        try assumption.
      * cbn [transactions]. now rewrite dict_get_set_ne.
      * rewrite (mark_refunded_frame refund_id d "status") by discriminate.
        exact Hs.
      * rewrite (mark_refunded_frame refund_id d "amount") by discriminate.
        exact Ha.
      * rewrite (mark_refunded_frame refund_id d "currency") by discriminate.
        exact Hc.
      * rewrite (mark_refunded_frame refund_id d "customer_id") by discriminate.
        exact Hcu.
    + lia.
    + rewrite list_lookup_insert_ne by lia. now apply lookup_app_l_Some.
    + rewrite list_lookup_insert_ne by lia. now apply list_lookup_middle.
    + reflexivity.
    + reflexivity.
    + unfold get_transaction. apply dict_get_set_eq.
    + apply list_lookup_insert_eq. rewrite length_app. lia.
    + apply mark_refunded_link.
    + apply mark_refunded_link.
Qed.

Lemma refund_transaction_success_again_witness :
  exists (r : loc) (self' : PaymentProcessor) (h' : heap) (refund d' : dict value),
    refund_transaction paid.1.2 paid.2 "txn_20240101120000_00000000000000a1"
      src2 "2024-01-01T12:00:01" = Ok (Some r, self', h') /\
    h' !! r = Some refund /\
    h' !! 0 = Some d' /\
    dict_get "refund_id" d' = Some (VStr "txn_20240101120001_00000000000000b2") /\
    exists (r2 : loc) (self'' : PaymentProcessor) (h'' : heap)
           (refund2 d'' : dict value),
      refund_transaction self' h' "txn_20240101120000_00000000000000a1"
        src3 "2024-01-01T12:00:02" = Ok (Some r2, self'', h'') /\
      r2 <> r /\
      h'' !! 0 = Some d'' /\
      dict_get "refund_id" d''
        = Some (VStr "txn_20240101120002_00000000000000c3").
Proof.
  destruct (refund_transaction_success_again paid.1.2 paid.2
              "txn_20240101120000_00000000000000a1" src2 "2024-01-01T12:00:01"
              0 _ (VStatus SUCCESS) _ _ _
              eq_refl eq_refl eq_refl eq_refl eq_refl eq_refl eq_refl)
    as (r & self' & h' & refund & d' & H1 & _ & H2 & _ & _ & _ & H3 & _ & H4 & H5).
  exists r, self', h', refund, d'. split_and!; try assumption.
  destruct (H5 ltac:(discriminate) src3 "2024-01-01T12:00:02")
    as (r2 & self'' & h'' & refund2 & d'' & G1 & G2 & _ & _ & _ & _ & _ & G3 & _ & G4).
  exists r2, self'', h'', refund2, d''. split_and!; assumption.
Defined.

End RefundClaims.

(** ** What a call leaves in place *)

Section Frame.

Implicit Types (self : PaymentProcessor) (h : heap) (d : dict value).

(** The three ways [refund_transaction] returns. *)
Lemma refund_cases self h transaction_id src processed_at r self' h' :
  refund_transaction self h transaction_id src processed_at = Ok (r, self', h') ->
  (r = None /\ self' = self /\ h' = h) \/
  (r = Some (length h) /\ self' = self /\ h' = h ++ [not_refundable]) \/
  (exists tx d status amount currency customer_id,
     dict_get transaction_id (transactions self) = Some tx /\
     h !! tx = Some d /\
     dict_get "status" d = Some status /\
     eq_status status SUCCESS = true /\
     dict_get "amount" d = Some amount /\
     dict_get "currency" d = Some currency /\
     dict_get "customer_id" d = Some customer_id /\
     r = Some (length h) /\
     self' = {| transactions :=
                  dict_set (_generate_transaction_id src) (length h)
                    (transactions self) |} /\
     h' = <[tx := mark_refunded (_generate_transaction_id src) d]>
            (h ++ [refund_record (_generate_transaction_id src) transaction_id
                     amount currency customer_id processed_at])).
Proof.
  intros H.
  destruct (dict_get transaction_id (transactions self)) as [tx|] eqn:Htx.
  2:{ rewrite refund_unknown in H by done. injection H as <- <- <-. now left. }
  destruct (h !! tx) as [d|] eqn:Hd.
  2:{ unfold refund_transaction, deref in H. now rewrite Htx, Hd in H. }
  destruct d as [|kv d].
  { unfold refund_transaction, deref in H. rewrite Htx, Hd in H.
    injection H as <- <- <-. now left. }
  destruct (dict_get "status" (kv :: d)) as [status|] eqn:Hs.
  2:{ unfold refund_transaction, deref, getitem in H.
      rewrite Htx, Hd in H. cbn [mbind result_bind] in H. now rewrite Hs in H. }
  destruct (eq_status status SUCCESS) eqn:Heq.
  2:{ rewrite (refund_not_success _ _ _ _ _ tx (kv :: d) status) in H by done.
      injection H as <- <- <-. right. now left. }
  destruct (dict_get "amount" (kv :: d)) as [amount|] eqn:Ha.
  2:{ unfold refund_transaction, deref, getitem in H.
      rewrite Htx, Hd in H. cbn [mbind result_bind] in H. rewrite Hs in H.
      cbn [mbind result_bind] in H. now rewrite Heq, Ha in H. }
  destruct (dict_get "currency" (kv :: d)) as [currency|] eqn:Hc.
  2:{ unfold refund_transaction, deref, getitem in H.
      rewrite Htx, Hd in H. cbn [mbind result_bind] in H. rewrite Hs in H.
      cbn [mbind result_bind] in H. now rewrite Heq, Ha, Hc in H. }
  destruct (dict_get "customer_id" (kv :: d)) as [customer_id|] eqn:Hcu.
  2:{ unfold refund_transaction, deref, getitem in H.
      rewrite Htx, Hd in H. cbn [mbind result_bind] in H. rewrite Hs in H.
      cbn [mbind result_bind] in H. now rewrite Heq, Ha, Hc, Hcu in H. }
  rewrite (refund_success _ _ _ _ _ tx (kv :: d) status amount currency customer_id)
    in H by done.
  cbv zeta in H. injection H as <- <- <-. right; right.
  now exists tx, (kv :: d), status, amount, currency, customer_id.
Qed.

Lemma same_but_refund_link_refl d : same_but_refund_link d d.
Proof. now intros k _ _. Qed.

Lemma same_but_refund_link_trans d1 d2 d3 :
  same_but_refund_link d1 d2 -> same_but_refund_link d2 d3 ->
  same_but_refund_link d1 d3.
Proof. intros H1 H2 k Ha Hb. now rewrite H2, H1. Qed.

Lemma refund_frame self h transaction_id src processed_at r self' h' l d :
  refund_transaction self h transaction_id src processed_at = Ok (r, self', h') ->
  h !! l = Some d ->
  exists d',
    h' !! l = Some d' /\
    same_but_refund_link d d' /\
    (get_transaction self transaction_id <> Some l -> d' = d).
Proof.
  intros [(_ & _ & ->)|[(_ & _ & ->)|H]]%refund_cases Hl.
  - exists d. split_and!; [done|apply same_but_refund_link_refl|done].
  - exists d. split_and!; [|apply same_but_refund_link_refl|done].
    now apply lookup_app_l_Some.
  - destruct H as (tx & d0 & status & amount & currency & customer_id & Htx & Hd0
                   & _ & _ & _ & _ & _ & _ & _ & ->).
    pose proof (lookup_lt_Some _ _ _ Hl) as Hlt.
    destruct (decide (tx = l)) as [->|Hne].
    + assert (d0 = d) as -> by congruence.
      exists (mark_refunded (_generate_transaction_id src) d). split_and!.
      * apply list_lookup_insert_eq. rewrite length_app. lia.
      * apply mark_refunded_frame.
      * unfold get_transaction. congruence.
    + exists d. split_and!; [|apply same_but_refund_link_refl|done].
      rewrite list_lookup_insert_ne by done. now apply lookup_app_l_Some.
Qed.

Lemma step_frame s s' l d :
  step s s' -> s.2 !! l = Some d ->
  exists d', s'.2 !! l = Some d' /\ same_but_refund_link d d'.
Proof.
  intros [self h token amount currency customer_id description token_data src u
            processed_at tx self' h' H
         |self h transaction_id src processed_at r self' h' H] Hl; simpl in *.
  - apply process_payment_record in H as (d0 & _ & _ & -> & _).
    exists d. split; [now apply lookup_app_l_Some|apply same_but_refund_link_refl].
  - destruct (refund_frame _ _ _ _ _ _ _ _ _ _ H Hl) as (d' & H1 & H2 & _).
    now exists d'.
Qed.

Lemma steps_frame s s' l d :
  rtc step s s' -> s.2 !! l = Some d ->
  exists d', s'.2 !! l = Some d' /\ same_but_refund_link d d'.
Proof.
  intros H. revert d. induction H as [s|s1 s2 s3 H12 _ IH]; intros d Hl.
  - exists d. split; [done|apply same_but_refund_link_refl].
  - destruct (step_frame _ _ _ _ H12 Hl) as (d2 & H2 & F2).
    destruct (IH _ H2) as (d3 & H3 & F3).
    exists d3. split; [done|]. now apply (same_but_refund_link_trans _ d2).
Qed.

(** C8: the processor never changes the status of a record once created:
    over any sequence of [process_payment] and [refund_transaction] calls
    a record stays where it is and keeps every field but [refunded] and
    [refund_id]; one refund changes the original in these two fields only
    and no other record at all; a payment changes no record.  A call leaves
    an id with its record unless the id it generates is that very id. *)
Theorem transaction_fields_fixed :
  (forall s s' l d,
     rtc step s s' -> s.2 !! l = Some d ->
     exists d',
       s'.2 !! l = Some d' /\
       dict_get "status" d' = dict_get "status" d /\
       same_but_refund_link d d') /\
  (forall self h transaction_id src processed_at r self' h' l d,
     refund_transaction self h transaction_id src processed_at
       = Ok (r, self', h') ->
     h !! l = Some d ->
     exists d',
       h' !! l = Some d' /\
       same_but_refund_link d d' /\
       (get_transaction self transaction_id <> Some l -> d' = d)) /\
  (forall self h token amount currency customer_id description token_data src u
          processed_at tx self' h' l d,
     process_payment self h token amount currency customer_id description
       token_data src u processed_at = (tx, self', h') ->
     h !! l = Some d ->
     h' !! l = Some d) /\
  (forall self h token amount currency customer_id description token_data src u
          processed_at tx self' h' id,
     process_payment self h token amount currency customer_id description
       token_data src u processed_at = (tx, self', h') ->
     id <> _generate_transaction_id src ->
     get_transaction self' id = get_transaction self id) /\
  (forall self h transaction_id src processed_at r self' h' id,
     refund_transaction self h transaction_id src processed_at
       = Ok (r, self', h') ->
     id <> _generate_transaction_id src ->
     get_transaction self' id = get_transaction self id).
Proof.
  split_and!.
  - intros s s' l d H Hl.
    destruct (steps_frame _ _ _ _ H Hl) as (d' & H1 & H2).
    exists d'. split_and!; [done| |done]. now apply H2.
  - intros self h transaction_id src processed_at r self' h' l d H Hl.
    exact (refund_frame _ _ _ _ _ _ _ _ _ _ H Hl).
  - intros self h token amount currency customer_id description token_data src u
      processed_at tx self' h' l d H Hl.
    apply process_payment_record in H as (d0 & _ & _ & -> & _).
    now apply lookup_app_l_Some.
  - intros self h token amount currency customer_id description token_data src u
      processed_at tx self' h' id H Hne. unfold get_transaction.
    apply process_payment_record in H as (d0 & _ & _ & _ & -> & _).
    now rewrite dict_get_set_ne.
  - intros self h transaction_id src processed_at r self' h' id H Hne.
    unfold get_transaction.
    destruct (refund_cases _ _ _ _ _ _ _ _ H)
      as [(_ & -> & _)|[(_ & -> & _)|H']]; [done|done|].
    destruct H' as (? & ? & ? & ? & ? & ? & _ & _ & _ & _ & _ & _ & _ & _
                    & -> & _).
    cbn [transactions]. now rewrite dict_get_set_ne.
Qed.

Lemma transaction_fields_fixed_witness :
  rtc step (paid.1.2, paid.2) paid_refunded /\
  exists d' : dict value,
    paid_refunded.2 !! 0 = Some d' /\
    dict_get "status" d' = Some (VStatus SUCCESS) /\
    dict_get "amount" d' = Some (VFloat 25).
Proof.
  assert (H : rtc step (paid.1.2, paid.2) paid_refunded).
  { apply rtc_once.
    now apply (step_refund_transaction _ _ "txn_20240101120000_00000000000000a1"
                 src2 "2024-01-01T12:00:01" (Some 1)). }
  split; [exact H|].
  destruct (proj1 transaction_fields_fixed _ _ 0 _ H eq_refl) as (d' & H1 & H2 & H3).
  exists d'. split_and!; [exact H1|exact H2|].
  now rewrite H3.
Defined.

End Frame.

(** ** The store invariant and the transactions of a customer *)

Section Customers.

Implicit Types (self : PaymentProcessor) (h : heap) (d : dict value).

Lemma store_ok_spec self h :
  store_ok self h = true <->
  forall k tx, (k, tx) ∈ transactions self ->
    exists d, h !! tx = Some d /\ record_ok d = true.
Proof.
  unfold store_ok, dict_values. rewrite forallb_forall. split.
  - intros H k tx Hin.
    specialize (H tx). destruct (h !! tx) as [d|].
    + exists d. split; [done|]. apply H. apply in_map_iff. exists (k, tx).
      split; [done|]. now apply list_elem_of_In.
    + discriminate H. apply in_map_iff. exists (k, tx).
      split; [done|]. now apply list_elem_of_In.
  - intros H tx [[k tx'] [<- Hin]]%in_map_iff. simpl.
    apply list_elem_of_In in Hin.
    now destruct (H _ _ Hin) as (d & -> & Hd).
Qed.

Lemma store_ok_init h : store_ok payment_processor.__init__ h = true.
Proof. reflexivity. Qed.

Lemma record_ok_mark_refunded refund_id d :
  record_ok d = true -> record_ok (mark_refunded refund_id d) = true.
Proof.
  unfold record_ok.
  now rewrite !(mark_refunded_frame refund_id d) by discriminate.
Qed.

Lemma store_ok_process_payment self h token amount currency customer_id
    description token_data src u processed_at tx self' h' :
  store_ok self h = true ->
  process_payment self h token amount currency customer_id description
    token_data src u processed_at = (tx, self', h') ->
  store_ok self' h' = true.
Proof.
  rewrite !store_ok_spec.
  intros Hok (d & Hd & -> & -> & -> & ->)%process_payment_record k tx'
    [[= -> ->]|Hin]%dict_set_elem.
  - eexists. split; [exact Hd|reflexivity].
  - destruct (Hok _ _ Hin) as (d' & H1 & H2). exists d'.
    split; [now apply lookup_app_l_Some|done].
Qed.

Lemma store_ok_refund self h transaction_id src processed_at r self' h' :
  store_ok self h = true ->
  refund_transaction self h transaction_id src processed_at = Ok (r, self', h') ->
  store_ok self' h' = true.
Proof.
  intros Hok [(_ & -> & ->)|[(_ & -> & ->)|H]]%refund_cases; [done| |].
  - apply store_ok_spec. intros k tx Hin.
    destruct (proj1 (store_ok_spec _ _) Hok _ _ Hin) as (d & H1 & H2).
    exists d. split; [now apply lookup_app_l_Some|done].
  - destruct H as (tx & d & status & amount & currency & customer_id & Htx & Hd
                   & Hs & Heq & Ha & Hc & Hcu & _ & -> & ->).
    pose proof (proj1 (store_ok_spec _ _) Hok) as Hok'.
    destruct (Hok' _ _ (dict_get_elem _ _ _ Htx)) as (d0 & Hd0 & Hrec).
    assert (d0 = d) as -> by congruence.
    pose proof (lookup_lt_Some _ _ _ Hd) as Hlt.
    apply store_ok_spec. intros k tx' [[= -> ->]|Hin]%dict_set_elem.
    + eexists. split.
      * rewrite list_lookup_insert_ne by lia. now apply list_lookup_middle.
      * unfold record_ok in *. cbn [refund_record dict_get String.eqb Ascii.eqb Bool.eqb].
        rewrite Hcu, Hs in Hrec.
        destruct customer_id; try discriminate. reflexivity.
    + destruct (Hok' _ _ Hin) as (d' & H1 & H2).
      destruct (decide (tx = tx')) as [<-|Hne].
      * assert (d' = d) as -> by congruence.
        exists (mark_refunded (_generate_transaction_id src) d).
        split; [|now apply record_ok_mark_refunded].
        apply list_lookup_insert_eq. rewrite length_app. lia.
      * exists d'. split; [|done].
        rewrite list_lookup_insert_ne by done. now apply lookup_app_l_Some.
Qed.

(** With the invariant, the comprehension is a filter. *)
Lemma select_customer_filter h customer_id values :
  (forall tx, In tx values -> exists d, h !! tx = Some d /\ record_ok d = true) ->
  select_customer h customer_id values
  = Ok (List.filter (of_customer h customer_id) values).
Proof.
  induction values as [|tx values IH]; intros H; [done|].
  cbn [select_customer List.filter].
  destruct (H tx (or_introl eq_refl)) as (d & Hd & Hrec).
  rewrite (deref_Some _ _ _ Hd). cbn [mbind result_bind].
  unfold record_ok in Hrec. unfold getitem, of_customer. rewrite Hd.
  destruct (dict_get "customer_id" d) as [c|]; [|discriminate].
  cbn [mbind result_bind].
  rewrite IH by (intros tx' Hin; apply H; now right).
  reflexivity.
Qed.

Lemma get_customer_transactions_filter self h customer_id :
  store_ok self h = true ->
  get_customer_transactions self h customer_id
  = Ok (List.filter (of_customer h customer_id) (dict_values (transactions self))).
Proof.
  intros Hok. apply select_customer_filter. intros tx Hin.
  unfold store_ok in Hok. rewrite forallb_forall in Hok.
  specialize (Hok tx Hin). destruct (h !! tx) as [d|]; [|discriminate].
  now exists d.
Qed.

Lemma of_customer_frame h h' customer_id tx d :
  h !! tx = Some d ->
  (exists d', h' !! tx = Some d' /\ same_but_refund_link d d') ->
  of_customer h' customer_id tx = of_customer h customer_id tx.
Proof.
  intros Hd (d' & Hd' & F). unfold of_customer. rewrite Hd, Hd'.
  now rewrite (F "customer_id") by discriminate.
Qed.

(** A record stored under a new id comes last. *)
Lemma customers_after_append self h self' h' id l customer_id :
  store_ok self h = true ->
  store_ok self' h' = true ->
  dict_get id (transactions self) = None ->
  transactions self' = dict_set id l (transactions self) ->
  (forall tx d, h !! tx = Some d ->
     exists d', h' !! tx = Some d' /\ same_but_refund_link d d') ->
  get_customer_transactions self' h' customer_id
  = Ok (List.filter (of_customer h customer_id) (dict_values (transactions self))
        ++ (if of_customer h' customer_id l then [l] else [])).
Proof.
  intros Hok Hok' Hfresh Htx Hframe.
  rewrite (get_customer_transactions_filter _ _ _ Hok').
  rewrite Htx, (dict_set_fresh _ _ _ Hfresh). unfold dict_values.
  rewrite map_app, List.filter_app. cbn [map List.filter snd]. do 2 f_equal.
  apply List.filter_ext_in. intros tx Hin.
  unfold store_ok in Hok. rewrite forallb_forall in Hok. specialize (Hok tx Hin).
  destruct (h !! tx) as [d|] eqn:Hd; [|discriminate].
  apply (of_customer_frame _ _ _ _ d Hd). now apply Hframe.
Qed.

(** The invariant holds of every state the processor reaches from its
    initial one, and a refund then raises no exception. *)
Lemma store_ok_steps s s' :
  rtc step s s' -> store_ok s.1 s.2 = true -> store_ok s'.1 s'.2 = true.
Proof.
  induction 1 as [s|s1 s2 s3 H12 _ IH]; [done|]. intros Hok. apply IH.
  destruct H12 as [? ? ? ? ? ? ? ? ? ? ? ? ? ? H|? ? ? ? ? ? ? ? H]; simpl in *.
  - exact (store_ok_process_payment _ _ _ _ _ _ _ _ _ _ _ _ _ _ Hok H).
  - exact (store_ok_refund _ _ _ _ _ _ _ _ Hok H).
Qed.

Lemma refund_transaction_returns self h transaction_id src processed_at :
  store_ok self h = true ->
  exists r self' h',
    refund_transaction self h transaction_id src processed_at
    = Ok (r, self', h').
Proof.
  intros Hok.
  destruct (dict_get transaction_id (transactions self)) as [tx|] eqn:Htx.
  2:{ eexists _, _, _. now apply refund_unknown. }
  destruct (proj1 (store_ok_spec _ _) Hok _ _ (dict_get_elem _ _ _ Htx))
    as (d & Hd & Hrec).
  unfold record_ok in Hrec.
  destruct (dict_get "customer_id" d) as [[]|] eqn:Hcu; try discriminate.
  destruct (dict_get "status" d) as [[]|] eqn:Hs; try discriminate.
  destruct (dict_get "amount" d) as [amount|] eqn:Ha; [|discriminate].
  destruct (dict_get "currency" d) as [currency|] eqn:Hc; [|discriminate].
  destruct (eq_status (VStatus s0) SUCCESS) eqn:Heq.
  - eexists _, _, _.
    exact (refund_success _ _ _ src processed_at _ _ _ _ _ _
             Htx Hd Hs Heq Ha Hc Hcu).
  - eexists _, _, _.
    exact (refund_not_success _ _ _ src processed_at _ _ _ Htx Hd Hs Heq).
Qed.

(** C6: [get_customer_transactions] answers the stored records of the
    customer, all of them and no other, in the order of the store, and the
    empty list when there is none; it takes the state and gives none back,
    changing nothing.  The order of the store is the order of creation: a
    payment or a refund stored under a new id comes after all the others. *)
Theorem get_customer_transactions_spec self h customer_id :
  store_ok self h = true ->
  exists found,
    get_customer_transactions self h customer_id = Ok found /\
    found = List.filter (of_customer h customer_id)
              (dict_values (transactions self)) /\
    (forall tx, In tx found <->
       In tx (dict_values (transactions self)) /\
       of_customer h customer_id tx = true) /\
    ((forall tx, In tx (dict_values (transactions self)) ->
        of_customer h customer_id tx = false) -> found = []) /\
    (forall token amount currency customer_id' description token_data src u
            processed_at tx self' h',
       get_transaction self (_generate_transaction_id src) = None ->
       process_payment self h token amount currency customer_id' description
         token_data src u processed_at = (tx, self', h') ->
       get_customer_transactions self' h' customer_id
       = Ok (found ++ (if String.eqb customer_id' customer_id then [tx] else []))) /\
    (forall transaction_id src processed_at r self' h',
       get_transaction self (_generate_transaction_id src) = None ->
       refund_transaction self h transaction_id src processed_at
         = Ok (Some r, self', h') ->
       get_transaction self' (_generate_transaction_id src) = Some r ->
       get_customer_transactions self' h' customer_id
       = Ok (found ++ (if of_customer h' customer_id r then [r] else []))).
Proof.
  intros Hok. eexists. split; [now apply get_customer_transactions_filter|].
  split; [reflexivity|]. split_and!.
  - intros tx. apply List.filter_In.
  - intros H. induction (dict_values (transactions self)) as [|tx l IH]; [done|].
    cbn [List.filter]. rewrite (H tx) by now left.
    apply IH. intros tx' Hin. apply H. now right.
  - intros token amount currency customer_id' description token_data src u
      processed_at tx self' h' Hfresh Hpay.
    pose proof (store_ok_process_payment _ _ _ _ _ _ _ _ _ _ _ _ _ _ Hok Hpay)
      as Hok'.
    apply process_payment_record in Hpay as (d & Hd & -> & -> & Htx & Ed).
    rewrite (customers_after_append self h self' _ _ (length h) customer_id
               Hok Hok' Hfresh Htx).
    + unfold of_customer. rewrite Hd. now subst d.
    + intros l d0 Hl. exists d0.
      split; [now apply lookup_app_l_Some|apply same_but_refund_link_refl].
  - intros transaction_id src processed_at r self' h' Hfresh Href Hstored.
    pose proof (store_ok_refund _ _ _ _ _ _ _ _ Hok Href) as Hok'.
    apply (customers_after_append self h self' h' _ r customer_id
             Hok Hok' Hfresh).
    + destruct (refund_cases _ _ _ _ _ _ _ _ Href)
        as [([=] & _)|[(_ & -> & _)|H]].
      * unfold get_transaction in *. congruence.
      * now destruct H as (? & ? & ? & ? & ? & ? & _ & _ & _ & _ & _ & _ & _
                           & [= ->] & -> & _).
    + intros l d Hl.
      destruct (refund_frame _ _ _ _ _ _ _ _ _ _ Href Hl) as (d' & H1 & H2 & _).
      now exists d'.
Qed.

Lemma get_customer_transactions_spec_witness :
  store_ok paid_refunded.1 paid_refunded.2 = true /\
  get_customer_transactions paid_refunded.1 paid_refunded.2 "cust_1" = Ok [0; 1] /\
  get_customer_transactions paid_refunded.1 paid_refunded.2 "cust_2" = Ok [].
Proof.
  split; [reflexivity|].
  destruct (get_customer_transactions_spec paid_refunded.1 paid_refunded.2
              "cust_1" eq_refl) as (found & H1 & H2 & _).
  destruct (get_customer_transactions_spec paid_refunded.1 paid_refunded.2
              "cust_2" eq_refl) as (found' & H1' & _ & _ & H4' & _).
  split.
  - rewrite H1, H2. reflexivity.
  - rewrite H1', H4'; [reflexivity|].
    intros tx [<-|[<-|[]]]; reflexivity.
Defined.

(** C10: the refund record a successful refund creates is stored in the
    transaction store under its refund id, with the amount, the currency and
    the customer of the original; [get_transaction] on the refund id answers
    it and [get_customer_transactions] for the customer of the original
    lists it; it has a [refund_id] and no [transaction_id], [token] or
    [card_info]. *)
Theorem refund_record_stored self h transaction_id src processed_at tx d status
    customer :
  store_ok self h = true ->
  get_transaction self transaction_id = Some tx ->
  h !! tx = Some d ->
  dict_get "status" d = Some status ->
  eq_status status SUCCESS = true ->
  dict_get "customer_id" d = Some (VStr customer) ->
  let refund_id := _generate_transaction_id src in
  exists r self' h' refund found,
    refund_transaction self h transaction_id src processed_at
      = Ok (Some r, self', h') /\
    get_transaction self' refund_id = Some r /\
    h' !! r = Some refund /\
    dict_get "amount" refund = dict_get "amount" d /\
    dict_get "currency" refund = dict_get "currency" d /\
    dict_get "customer_id" refund = dict_get "customer_id" d /\
    dict_get "refund_id" refund = Some (VStr refund_id) /\
    dict_get "transaction_id" refund = None /\
    dict_get "token" refund = None /\
    dict_get "card_info" refund = None /\
    get_customer_transactions self' h' customer = Ok found /\
    In r found.
Proof.
  intros Hok Htx Hd Hs Heq Hcu refund_id.
  destruct (proj1 (store_ok_spec _ _) Hok _ _ (dict_get_elem _ _ _ Htx))
    as (d0 & Hd0 & Hrec).
  assert (d0 = d) as -> by congruence.
  unfold record_ok in Hrec. rewrite Hcu, Hs in Hrec.
  destruct status; try discriminate.
  destruct (dict_get "amount" d) as [amount|] eqn:Ha; [|discriminate].
  destruct (dict_get "currency" d) as [currency|] eqn:Hc; [|discriminate].
  pose proof (refund_success _ _ _ src processed_at _ _ _ _ _ _
                Htx Hd Hs Heq Ha Hc Hcu) as Href.
  cbv zeta in Href. fold refund_id in Href.
  pose proof (store_ok_refund _ _ _ _ _ _ _ _ Hok Href) as Hok'.
  pose proof (lookup_lt_Some _ _ _ Hd) as Hlt.
  assert (Hr : (<[tx := mark_refunded refund_id d]>
                  (h ++ [refund_record refund_id transaction_id amount currency
                           (VStr customer) processed_at])) !! length h
               = Some (refund_record refund_id transaction_id amount currency
                         (VStr customer) processed_at)).
  { rewrite list_lookup_insert_ne by lia. now apply list_lookup_middle. }
  eexists (length h), _, _,
    (refund_record refund_id transaction_id amount currency (VStr customer)
       processed_at), _.
  split; [exact Href|].
  split_and!; try reflexivity; try (symmetry; assumption).
  - unfold get_transaction. apply dict_get_set_eq.
  - exact Hr.
  - now apply get_customer_transactions_filter.
  - apply List.filter_In. split.
    + unfold dict_values. apply in_map_iff. exists (refund_id, length h).
      split; [done|]. apply list_elem_of_In. apply dict_get_elem.
      apply dict_get_set_eq.
    + unfold of_customer. rewrite Hr.
      cbn [refund_record dict_get String.eqb Ascii.eqb Bool.eqb eq_str].
      apply String.eqb_refl.
Qed.

Lemma refund_record_stored_witness :
  exists (r : loc) (self' : PaymentProcessor) (h' : heap) (refund : dict value)
         (found : list loc),
    refund_transaction paid.1.2 paid.2 "txn_20240101120000_00000000000000a1"
      src2 "2024-01-01T12:00:01" = Ok (Some r, self', h') /\
    get_transaction self' "txn_20240101120001_00000000000000b2" = Some r /\
    h' !! r = Some refund /\
    dict_get "amount" refund = Some (VFloat 25) /\
    get_customer_transactions self' h' "cust_1" = Ok found /\
    In r found.
Proof.
  destruct (refund_record_stored paid.1.2 paid.2
              "txn_20240101120000_00000000000000a1" src2 "2024-01-01T12:00:01"
              0 _ (VStatus SUCCESS) "cust_1"
              eq_refl eq_refl eq_refl eq_refl eq_refl eq_refl)
    as (r & self' & h' & refund & found & H1 & H2 & H3 & H4 & _ & _ & _ & _ & _
        & _ & H5 & H6).
  exists r, self', h', refund, found. split_and!; assumption.
Defined.

End Customers.

(** ** The card type *)

Section CardType.

Lemma prefix_cons a p b s :
  String.prefix (String a p) (String b s) = Ascii.eqb a b && String.prefix p s.
Proof.
  cbn [String.prefix]. destruct (ascii_dec a b) as [->|Hne].
  - now rewrite Ascii.eqb_refl.
  - now apply Ascii.eqb_neq in Hne as ->.
Qed.

Lemma prefix_nil s : String.prefix "" s = true.
Proof. now destruct s. Qed.

Lemma prefix_cons_nil a p : String.prefix (String a p) "" = false.
Proof. reflexivity. Qed.

Lemma range_1_5 c :
  re.class_mem [re.CRange "1" "5"] c
  = Ascii.eqb "1" c || Ascii.eqb "2" c || Ascii.eqb "3" c || Ascii.eqb "4" c
    || Ascii.eqb "5" c.
Proof. destruct c as [[] [] [] [] [] [] [] []]; reflexivity. Qed.

Lemma match_visa s : re._match visa_re s = String.prefix "4" s.
Proof.
  destruct s as [|c s]; [reflexivity|].
  rewrite prefix_cons, prefix_nil. unfold re._match, visa_re.
  cbn [re.match_at Nat.eqb flat_map app]. now destruct (Ascii.eqb "4" c).
Qed.

Lemma match_mastercard s :
  re._match mastercard_re s
  = starts_with_any ["51"; "52"; "53"; "54"; "55"] s.
Proof.
  unfold starts_with_any. cbn [existsb].
  destruct s as [|c1 [|c2 s]]; [reflexivity| |].
  - rewrite !prefix_cons, !prefix_cons_nil. unfold re._match, mastercard_re.
    cbn [re.match_at Nat.eqb flat_map app]. now destruct (Ascii.eqb "5" c1).
  - rewrite !prefix_cons, !prefix_nil. unfold re._match, mastercard_re.
    cbn [re.match_at Nat.eqb flat_map app].
    destruct (Ascii.eqb "5" c1); [|reflexivity].
    cbn [re.match_at flat_map app]. rewrite range_1_5.
    now destruct (Ascii.eqb "1" c2), (Ascii.eqb "2" c2), (Ascii.eqb "3" c2),
      (Ascii.eqb "4" c2), (Ascii.eqb "5" c2).
Qed.

Lemma match_amex s :
  re._match amex_re s = starts_with_any ["34"; "37"] s.
Proof.
  unfold starts_with_any. cbn [existsb].
  destruct s as [|c1 [|c2 s]]; [reflexivity| |].
  - rewrite !prefix_cons, !prefix_cons_nil. unfold re._match, amex_re.
    cbn [re.match_at Nat.eqb flat_map app]. now destruct (Ascii.eqb "3" c1).
  - rewrite !prefix_cons, !prefix_nil. unfold re._match, amex_re.
    cbn [re.match_at Nat.eqb flat_map app].
    destruct (Ascii.eqb "3" c1); [|reflexivity].
    cbn [re.match_at flat_map app re.class_mem re.item_mem existsb].
    now destruct (Ascii.eqb "4" c2), (Ascii.eqb "7" c2).
Qed.

Lemma match_discover s :
  re._match discover_re s = starts_with_any ["6011"; "65"] s.
Proof.
  unfold starts_with_any. cbn [existsb].
  unfold re._match, discover_re.
  destruct s as [|c1 s]; [reflexivity|].
  cbn [re.match_at Nat.eqb flat_map app]. rewrite !prefix_cons.
  destruct (Ascii.eqb "6" c1); [|reflexivity].
  cbn [re.match_at flat_map app andb]. rewrite app_nil_r.
  destruct s as [|c2 s]; [reflexivity|].
  rewrite !prefix_cons, prefix_nil.
  destruct (Ascii.eqb "0" c2) eqn:E0, (Ascii.eqb "5" c2) eqn:E5;
    cbn [flat_map app andb orb re.match_at]; try reflexivity.
  - apply Ascii.eqb_eq in E0 as <-. discriminate E5.
  - destruct s as [|c3 s]; [reflexivity|]. rewrite prefix_cons.
    destruct (Ascii.eqb "1" c3); cbn [flat_map app andb orb re.match_at];
      [|reflexivity].
    destruct s as [|c4 s]; [reflexivity|]. rewrite prefix_cons, prefix_nil.
    now destruct (Ascii.eqb "1" c4).
Qed.


Example card_types :
  _identify_card_type "4532015112830366" = "Visa" /\
  _identify_card_type "5425233430109903" = "Mastercard" /\
  _identify_card_type "374245455400126" = "American Express" /\
  _identify_card_type "6011-0009-9013-9424" = "Discover" /\
  _identify_card_type "6500000000000002" = "Discover" /\
  _identify_card_type "5625233430109903" = "Unknown" /\
  _identify_card_type " 4532 0151 1283 0366" = "Visa".
Proof. repeat split. Qed.

End CardType.

(** ** The tokenizer *)

Section Tokenize.

Variable sha256_hexdigest : string -> string.
Variable isoformat : datetime -> string.

Implicit Types (self : PaymentTokenizer) (h : heap) (d : dict value).

Lemma tokenize_card_record self h card_number card_holder expiry_month
    expiry_year cvv e info self' h' :
  tokenize_card sha256_hexdigest isoformat self h card_number card_holder
    expiry_month expiry_year cvv e = (info, self', h') ->
  let token := _generate_token sha256_hexdigest isoformat card_number e in
  let expires_at := isoformat (now_expiry e + timedelta_hours 24)%Z in
  exists record,
    h' = h ++ [record] /\
    h' !! length h = Some record /\
    tokens self' = dict_set token (length h) (tokens self) /\
    info = [ ("token", VStr token);
             ("last_four_digits", VStr (str_last 4 card_number));
             ("card_type", VStr (_identify_card_type card_number));
             ("expires_at", VStr expires_at) ] /\
    record = [ ("token", VStr token);
               ("card_number_hash", VStr (sha256_hexdigest card_number));
               ("last_four_digits", VStr (str_last 4 card_number));
               ("card_holder", VStr card_holder);
               ("expiry_month", VInt expiry_month);
               ("expiry_year", VInt expiry_year);
               ("card_type", VStr (_identify_card_type card_number));
               ("expires_at", VStr expires_at);
               ("created_at", VStr (isoformat (now_created e)));
               ("is_valid", VBool true) ].
Proof.
  unfold tokenize_card, alloc. intros [= <- <- <-]. cbv zeta.
  eexists. split_and!; try reflexivity. now apply list_lookup_middle.
Qed.

End Tokenize.

Section Clean.

Lemma append_single c s : String c "" +:+ s = String c s.
Proof. reflexivity. Qed.

Lemma clean_no_separator s : no_separator (clean s) = true.
Proof.
  induction s as [|c s IH]; [reflexivity|].
  unfold clean in *. cbn [re.sub_class].
  destruct (re.class_mem spaces_or_dash c) eqn:E; [exact IH|].
  rewrite append_single. cbn [no_separator]. now rewrite E.
Qed.

Lemma clean_id s : no_separator s = true -> clean s = s.
Proof.
  induction s as [|c s IH]; [reflexivity|].
  cbn [no_separator]. intros [E H]%andb_true_iff.
  unfold clean in *. cbn [re.sub_class].
  apply negb_true_iff in E. rewrite E, append_single. now rewrite IH.
Qed.

Lemma clean_idempotent s : clean (clean s) = clean s.
Proof. apply clean_id, clean_no_separator. Qed.

Lemma validate_card_number_clean v n :
  models.validate_card_number v = Ok n -> n = clean v /\ clean n = n.
Proof.
  unfold models.validate_card_number. fold spaces_or_dash. fold (clean v).
  destruct (negb (models.isdigit (clean v))); [discriminate|].
  destruct (negb _); [discriminate|].
  intros [= <-]. split; [reflexivity|apply clean_idempotent].
Qed.

End Clean.

Section LastFour.


End LastFour.

(** ** Validation of a token *)

Section Validate.

Variable fromisoformat : string -> option datetime.

Implicit Types (self : PaymentTokenizer) (h : heap) (d : dict value).

(** The validity flag as [validate_token] reads it. *)
Lemma validate_token_unknown self h token utcnow :
  get_token_info self token = None ->
  validate_token fromisoformat self h token utcnow = Ok (None, h).
Proof. unfold get_token_info, validate_token. now intros ->. Qed.

Lemma validate_token_invalid self h token utcnow l d :
  get_token_info self token = Some l ->
  h !! l = Some d ->
  truthy (default (VBool false) (dict_get "is_valid" d)) = false ->
  validate_token fromisoformat self h token utcnow = Ok (None, h).
Proof.
  unfold get_token_info, validate_token. intros -> Hd Hv.
  rewrite (deref_Some _ _ _ Hd). cbn [mbind result_bind]. now rewrite Hv.
Qed.

Lemma validate_token_checked self h token utcnow l d text expires_at :
  get_token_info self token = Some l ->
  h !! l = Some d ->
  truthy (default (VBool false) (dict_get "is_valid" d)) = true ->
  dict_get "expires_at" d = Some (VStr text) ->
  fromisoformat text = Some expires_at ->
  validate_token fromisoformat self h token utcnow
  = if (expires_at <? utcnow)%Z
    then Ok (None, <[l := dict_set "is_valid" (VBool false) d]> h)
    else Ok (Some l, h).
Proof.
  unfold get_token_info, validate_token. intros -> Hd Hv Ht Hp.
  rewrite (deref_Some _ _ _ Hd). cbn [mbind result_bind]. rewrite Hv.
  unfold getitem. rewrite Ht. cbn [negb mbind result_bind parse_datetime].
  rewrite Hp. cbn [mbind result_bind].
  now rewrite (setitem_lookup_eq_insert _ _ _ _ _ Hd).
Qed.

(** Whenever a record is returned it is the stored one, flagged valid and
    not past its expiry, and nothing has changed. *)
Lemma validate_token_some self h token utcnow r h' :
  validate_token fromisoformat self h token utcnow = Ok (Some r, h') ->
  get_token_info self token = Some r /\
  h' = h /\
  exists d text expires_at,
    h !! r = Some d /\
    truthy (default (VBool false) (dict_get "is_valid" d)) = true /\
    dict_get "expires_at" d = Some text /\
    parse_datetime fromisoformat text = Ok expires_at /\
    (utcnow <= expires_at)%Z.
Proof.
  unfold get_token_info, validate_token, deref, getitem.
  destruct (dict_get token (tokens self)) as [l|]; [|discriminate].
  destruct (h !! l) as [d|] eqn:Hd; [|discriminate]. cbn [mbind result_bind].
  destruct (truthy _) eqn:Hv; [|discriminate]. cbn [negb].
  destruct (dict_get "expires_at" d) as [text|] eqn:Ht; [|discriminate].
  cbn [mbind result_bind].
  destruct (parse_datetime fromisoformat text) as [expires_at|] eqn:Hp;
    [|discriminate].
  cbn [mbind result_bind].
  destruct (Z.ltb_spec expires_at utcnow); [discriminate|].
  intros [= <- <-]. split_and!; try reflexivity.
  now exists d, text, expires_at.
Qed.

(** C4: [validate_token] answers [None] for an unknown token, for a record
    flagged invalid, and for a record past its expiry, whose flag it then
    sets to false in place, as a later [get_token_info] shows; it answers
    the stored record when the flag is set and the clock is not past the
    expiry, and only then.  [get_token_info] answers what is stored under
    the token, or [None], without reading the clock or the record. *)
Theorem validate_token_spec self h token utcnow :
  (get_token_info self token = None ->
     validate_token fromisoformat self h token utcnow = Ok (None, h)) /\
  (forall l d,
     get_token_info self token = Some l ->
     h !! l = Some d ->
     (truthy (default (VBool false) (dict_get "is_valid" d)) = false ->
        validate_token fromisoformat self h token utcnow = Ok (None, h)) /\
     (forall text expires_at,
        truthy (default (VBool false) (dict_get "is_valid" d)) = true ->
        dict_get "expires_at" d = Some (VStr text) ->
        fromisoformat text = Some expires_at ->
        ((expires_at < utcnow)%Z ->
           exists h' d',
             validate_token fromisoformat self h token utcnow = Ok (None, h') /\
             get_token_info self token = Some l /\
             h' !! l = Some d' /\
             dict_get "is_valid" d' = Some (VBool false) /\
             (forall k, k <> "is_valid" -> dict_get k d' = dict_get k d) /\
             (forall l', l' <> l -> h' !! l' = h !! l') /\
             (forall later,
                validate_token fromisoformat self h' token later
                = Ok (None, h'))) /\
        ((utcnow <= expires_at)%Z ->
           validate_token fromisoformat self h token utcnow
           = Ok (Some l, h)))) /\
  (forall r h',
     validate_token fromisoformat self h token utcnow = Ok (Some r, h') ->
     get_token_info self token = Some r /\
     h' = h /\
     exists d text expires_at,
       h !! r = Some d /\
       truthy (default (VBool false) (dict_get "is_valid" d)) = true /\
       dict_get "expires_at" d = Some text /\
       parse_datetime fromisoformat text = Ok expires_at /\
       (utcnow <= expires_at)%Z) /\
  get_token_info self token = dict_get token (tokens self).
Proof.
  split_and!.
  - apply validate_token_unknown.
  - intros l d Hl Hd. split.
    + now apply (validate_token_invalid _ _ _ _ l d).
    + intros text expires_at Hv Ht Hp. split.
      * intros Hlt.
        pose proof (lookup_lt_Some _ _ _ Hd) as Hlen.
        exists (<[l := dict_set "is_valid" (VBool false) d]> h),
          (dict_set "is_valid" (VBool false) d).
        assert (Hd' : (<[l := dict_set "is_valid" (VBool false) d]> h) !! l
                      = Some (dict_set "is_valid" (VBool false) d))
          by now apply list_lookup_insert_eq.
        split_and!; try done.
        -- rewrite (validate_token_checked _ _ _ _ l d text expires_at) by done.
           now apply Z.ltb_lt in Hlt as ->.
        -- apply dict_get_set_eq.
        -- intros k Hk. now apply dict_get_set_ne.
        -- intros l' Hne. now apply list_lookup_insert_ne.
        -- intros later. apply (validate_token_invalid _ _ _ _ l _ Hl Hd').
           now rewrite dict_get_set_eq.
      * intros Hle.
        rewrite (validate_token_checked _ _ _ _ l d text expires_at) by done.
        now apply Z.ltb_ge in Hle as ->.
  - apply validate_token_some.
  - reflexivity.
Qed.

End Validate.

Lemma validate_token_spec_witness :
  (exists (h' : heap) (d' : dict value),
     validate_token sample_fromisoformat tokenized.1.2 tokenized.2
       "tok_9f86d081884c7d659a2feaa0c55ad015" 86400000001%Z = Ok (None, h') /\
     get_token_info tokenized.1.2 "tok_9f86d081884c7d659a2feaa0c55ad015"
       = Some 0 /\
     h' !! 0 = Some d' /\
     dict_get "is_valid" d' = Some (VBool false)) /\
  validate_token sample_fromisoformat tokenized.1.2 tokenized.2
    "tok_9f86d081884c7d659a2feaa0c55ad015" 86400000000%Z = Ok (Some 0, tokenized.2).
Proof.
  split.
  - destruct (proj1 (proj2 (proj1 (proj2 (validate_token_spec sample_fromisoformat
                tokenized.1.2 tokenized.2 "tok_9f86d081884c7d659a2feaa0c55ad015"
                86400000001%Z)) 0 _ eq_refl eq_refl) _ _ eq_refl eq_refl eq_refl)
              eq_refl)
      as (h' & d' & H1 & H2 & H3 & H4 & _).
    now exists h', d'.
  - apply (proj2 (proj2 (proj1 (proj2 (validate_token_spec sample_fromisoformat
             tokenized.1.2 tokenized.2 "tok_9f86d081884c7d659a2feaa0c55ad015"
             86400000000%Z)) 0 _ eq_refl eq_refl) _ _ eq_refl eq_refl eq_refl)).
    discriminate.
Defined.

(** ** From the card to the stored transaction *)

Section RoundTrip.

Variable sha256_hexdigest : string -> string.
Variable isoformat : datetime -> string.
Variable fromisoformat : string -> option datetime.

(** C7: a card is tokenized, the token validated, and a payment of 99.99
    made with the token and its metadata, the validated record or the
    answer of [tokenize_card]; [get_transaction] on the id of the
    transaction returned answers that transaction, whose amount is 99.99,
    whose token is the token used and whose [card_info.last_four] is the
    last four digits [tokenize_card] answered. *)
Theorem tokenize_pay_get_roundtrip tk h card_number card_holder expiry_month
    expiry_year cvv e info tk' h1 token utcnow l h2 record token_data
    pr currency customer_id description src u processed_at tx pr' h3 :
  tokenize_card sha256_hexdigest isoformat tk h card_number card_holder
    expiry_month expiry_year cvv e = (info, tk', h1) ->
  dict_get "token" info = Some (VStr token) ->
  validate_token fromisoformat tk' h1 token utcnow = Ok (Some l, h2) ->
  h2 !! l = Some record ->
  token_data = record \/ token_data = info ->
  process_payment pr h2 token 99.99%float currency customer_id description
    (Some token_data) src u processed_at = (tx, pr', h3) ->
  exists d transaction_id card_info last_four,
    h3 !! tx = Some d /\
    dict_get "transaction_id" d = Some (VStr transaction_id) /\
    get_transaction pr' transaction_id = Some tx /\
    dict_get "amount" d = Some (VFloat 99.99%float) /\
    dict_get "token" d = Some (VStr token) /\
    dict_get "card_info" d = Some (VDict card_info) /\
    dict_get "last_four_digits" info = Some last_four /\
    dict_get "last_four" card_info = Some last_four.
Proof.
  intros (record0 & -> & Hl0 & Htok & -> & Hrec)%tokenize_card_record
    [= <-] (Hl & -> & _)%validate_token_some Hrecord Hdata
    (d & Hd & _ & _ & Htx & ->)%process_payment_record.
  unfold get_token_info in Hl. rewrite Htok, dict_get_set_eq in Hl.
  injection Hl as <-. rewrite Hl0 in Hrecord. injection Hrecord as <-.
  eexists _, (_generate_transaction_id src), _, (VStr (str_last 4 card_number)).
  split_and!.
  - exact Hd.
  - reflexivity.
  - unfold get_transaction. rewrite Htx. apply dict_get_set_eq.
  - reflexivity.
  - reflexivity.
  - reflexivity.
  - reflexivity.
  - cbn [dict_get String.eqb Ascii.eqb Bool.eqb]. f_equal.
    destruct Hdata as [->| ->]; [subst record0|]; reflexivity.
Qed.

End RoundTrip.

Lemma tokenize_pay_get_roundtrip_witness :
  exists (d : dict value) (transaction_id : string) (card_info : dict value),
    (process_payment payment_processor.__init__ tokenized.2
       "tok_9f86d081884c7d659a2feaa0c55ad015" 99.99%float "USD" "cust_1" None
       (Some tokenized.1.1) src1 0.5%float "2024-01-01T12:00:00").2 !! 1
    = Some d /\
    get_transaction
      (process_payment payment_processor.__init__ tokenized.2
         "tok_9f86d081884c7d659a2feaa0c55ad015" 99.99%float "USD" "cust_1" None
         (Some tokenized.1.1) src1 0.5%float "2024-01-01T12:00:00").1.2
      transaction_id = Some 1 /\
    dict_get "amount" d = Some (VFloat 99.99%float) /\
    dict_get "token" d = Some (VStr "tok_9f86d081884c7d659a2feaa0c55ad015") /\
    dict_get "card_info" d = Some (VDict card_info) /\
    dict_get "last_four" card_info = Some (VStr "0366").
Proof.
  destruct (tokenize_pay_get_roundtrip sample_hexdigest sample_isoformat
              sample_fromisoformat tokenizer.__init__ [] "4532015112830366"
              "A. Holder" 12%Z 2030%Z "123" sample_entropy _ _ _
              "tok_9f86d081884c7d659a2feaa0c55ad015" 3600000000%Z 0 _ _
              tokenized.1.1 payment_processor.__init__ "USD" "cust_1" None src1
              0.5%float "2024-01-01T12:00:00" _ _ _
              eq_refl eq_refl eq_refl eq_refl (or_intror eq_refl) eq_refl)
    as (d & transaction_id & card_info & last_four & H1 & _ & H3 & H4 & H5 & H6
        & H7 & H8).
  exists d, transaction_id, card_info. split_and!; try assumption.
  injection H7 as <-. exact H8.
Defined.

(** * Further properties of the code *)

(** ** Identifiers *)

Section Identifiers.

Lemma append_cons c s t : String c s +:+ t = String c (s +:+ t).
Proof. reflexivity. Qed.

Lemma append_length s t :
  String.length (s +:+ t) = String.length s + String.length t.
Proof.
  induction s as [|c s IH]; [reflexivity|].
  rewrite append_cons. cbn [String.length]. now rewrite IH.
Qed.

Lemma append_inj s1 s2 t1 t2 :
  String.length s1 = String.length s2 ->
  s1 +:+ t1 = s2 +:+ t2 -> s1 = s2 /\ t1 = t2.
Proof.
  revert s2. induction s1 as [|c s1 IH]; intros [|c2 s2]; try discriminate.
  - intros _ H. now split.
  - cbn [String.length]. intros [= Hlen]. rewrite !append_cons. intros [= -> H].
    destruct (IH _ Hlen H) as [-> ->]. now split.
Qed.

Lemma substring_length n m s :
  String.length (String.substring n m s) = Nat.min m (String.length s - n).
Proof.
  revert n m. induction s as [|c s IH]; intros [|n] [|m];
    cbn [String.substring String.length]; try reflexivity.
  - now rewrite IH, Nat.sub_0_r.
  - now rewrite IH.
  - now rewrite IH.
Qed.

(** X1: a transaction id is "txn_", the timestamp, "_" and the random part;
    two ids made from timestamps of the same length, as [strftime] gives
    them, are equal only when both the timestamps and the random parts
    are. *)
Theorem generate_transaction_id_injective src src' :
  String.length (timestamp src) = String.length (timestamp src') ->
  _generate_transaction_id src = _generate_transaction_id src' ->
  timestamp src = timestamp src' /\ random_part src = random_part src'.
Proof.
  unfold _generate_transaction_id. intros Hlen H.
  apply (append_inj "txn_" "txn_") in H as [_ H]; [|reflexivity].
  apply append_inj in H as [Hts H]; [|exact Hlen].
  apply (append_inj "_" "_") in H as [_ H]; [|reflexivity].
  now split.
Qed.

Lemma generate_transaction_id_injective_witness :
  String.length (timestamp src1) = String.length (timestamp src1) /\
  timestamp src1 = timestamp src1 /\ random_part src1 = random_part src1.
Proof.
  split; [reflexivity|].
  exact (generate_transaction_id_injective src1 src1 eq_refl eq_refl).
Defined.

(** A transaction id starts with "txn_" and is five characters longer
    than its timestamp and random part together: 35 characters for a
    timestamp of 14 and 8 random bytes in hexadecimal. *)
Theorem generate_transaction_id_format src :
  String.prefix "txn_" (_generate_transaction_id src) = true /\
  String.length (_generate_transaction_id src)
  = 5 + String.length (timestamp src) + String.length (random_part src) /\
  (String.length (timestamp src) = 14 ->
   String.length (random_part src) = 16 ->
   String.length (_generate_transaction_id src) = 35).
Proof.
  assert (Hlen : String.length (_generate_transaction_id src)
                 = 5 + String.length (timestamp src)
                   + String.length (random_part src)).
  { unfold _generate_transaction_id. rewrite !append_length.
    cbn [String.length]. lia. }
  split_and!.
  - unfold _generate_transaction_id. rewrite !append_cons.
    now rewrite !prefix_cons, !Ascii.eqb_refl, prefix_nil.
  - exact Hlen.
  - intros H1 H2. rewrite Hlen, H1, H2. reflexivity.
Qed.

(** X2: a token is "tok_" and the first 32 characters of the digest: 36
    characters for a digest of 32 characters or more, as the 64 of
    SHA-256 in hexadecimal. *)
Theorem generate_token_format sha256_hexdigest isoformat card_number e :
  let data := card_number +:+ ":" +:+ random_data e +:+ ":"
              +:+ isoformat (now_token e) in
  let token := _generate_token sha256_hexdigest isoformat card_number e in
  String.prefix "tok_" token = true /\
  String.length token = 4 + Nat.min 32 (String.length (sha256_hexdigest data)) /\
  token = "tok_" +:+ str_take 32 (sha256_hexdigest data) /\
  String.prefix (str_take 32 (sha256_hexdigest data)) (sha256_hexdigest data)
  = true.
Proof.
  intros data token. unfold token, _generate_token. fold data. split_and!.
  - rewrite !append_cons. now rewrite !prefix_cons, !Ascii.eqb_refl, prefix_nil.
  - rewrite append_length. unfold str_take. rewrite substring_length.
    cbn [String.length]. now rewrite Nat.sub_0_r.
  - reflexivity.
  - unfold str_take. generalize 32. generalize (sha256_hexdigest data).
    induction s as [|c s IH]; intros [|n]; try reflexivity.
    cbn [String.substring]. rewrite prefix_cons, Ascii.eqb_refl. apply IH.
Qed.

End Identifiers.

(** ** The processor: collisions, refunds of refunds, what is never reached *)

Section ProcessorMore.

Implicit Types (self : PaymentProcessor) (h : heap) (d : dict value).

Lemma dict_set_length {V} (k : string) (v : V) (d : dict V) :
  length (dict_set k v d)
  = match dict_get k d with Some _ => length d | None => S (length d) end.
Proof.
  induction d as [|[k' v'] d IH]; [reflexivity|]. cbn [dict_set dict_get].
  destruct (String.eqb k' k); [reflexivity|]. cbn [length]. rewrite IH.
  now destruct (dict_get k d).
Qed.

(** X3: [process_payment] stores the record it returns under its id, whether
    the id is new or not.  Under a new id the store grows by one; under an
    id in use it keeps its size, the record that was there is no longer
    found by [get_transaction], and it is left as it was on the heap. *)
Theorem process_payment_stores self h token amount currency customer_id
    description token_data src u processed_at tx self' h' :
  process_payment self h token amount currency customer_id description
    token_data src u processed_at = (tx, self', h') ->
  let transaction_id := _generate_transaction_id src in
  get_transaction self' transaction_id = Some tx /\
  h !! tx = None /\
  (exists d, h' !! tx = Some d /\
             dict_get "transaction_id" d = Some (VStr transaction_id) /\
             dict_get "refunded" d = None /\
             dict_get "refund_id" d = None) /\
  (get_transaction self transaction_id = None ->
     length (transactions self') = S (length (transactions self))) /\
  (forall old d,
     get_transaction self transaction_id = Some old ->
     h !! old = Some d ->
     length (transactions self') = length (transactions self) /\
     get_transaction self' transaction_id <> Some old /\
     h' !! old = Some d).
Proof.
  intros (d & Hd & -> & -> & Htx & Ed)%process_payment_record transaction_id.
  unfold get_transaction. rewrite Htx. split_and!.
  - apply dict_get_set_eq.
  - now apply lookup_ge_None_2.
  - exists d. split; [exact Hd|]. now subst d.
  - intros Hnew. rewrite dict_set_length. fold transaction_id. now rewrite Hnew.
  - intros old d0 Hold Hd0. split_and!.
    + rewrite dict_set_length. fold transaction_id. now rewrite Hold.
    + rewrite dict_get_set_eq. intros [= <-].
      apply lookup_lt_Some in Hd0. lia.
    + now apply lookup_app_l_Some.
Qed.

Lemma process_payment_stores_witness :
  get_transaction paid.1.2 "txn_20240101120000_00000000000000a1" = Some 0 /\
  exists tx' self' h',
    process_payment paid.1.2 paid.2 "tok_2" 0.02%float "USD" "cust_2" None None
      src1 0.5%float "2024-01-01T12:00:00" = (tx', self', h') /\
    length (transactions self') = length (transactions paid.1.2) /\
    get_transaction self' "txn_20240101120000_00000000000000a1" <> Some 0.
Proof.
  split; [reflexivity|]. eexists _, _, _. split; [reflexivity|].
  destruct (process_payment_stores paid.1.2 paid.2 "tok_2" 0.02%float "USD"
              "cust_2" None None src1 0.5%float "2024-01-01T12:00:00" _ _ _
              eq_refl) as (_ & _ & _ & _ & H).
  destruct (H 0 _ eq_refl eq_refl) as (H1 & H2 & _).
  split; [exact H1|exact H2].
Defined.

(** X5: a refund record is a stored record with status success, so it can
    be refunded in its turn: the second refund names the first as its
    original, and the first, stored under its own id still, now carries the
    id of the second in [refund_id]. *)
Theorem refund_of_refund self h transaction_id refund_id amount currency
    customer_id processed_at r src2 processed_at2 :
  get_transaction self refund_id = Some r ->
  h !! r = Some (refund_record refund_id transaction_id amount currency
                   customer_id processed_at) ->
  let refund_id2 := _generate_transaction_id src2 in
  exists r2 self' h' refund2 d',
    refund_transaction self h refund_id src2 processed_at2
      = Ok (Some r2, self', h') /\
    h' !! r2 = Some refund2 /\
    dict_get "original_transaction_id" refund2 = Some (VStr refund_id) /\
    dict_get "amount" refund2 = Some amount /\
    h' !! r = Some d' /\
    dict_get "refunded" d' = Some (VBool true) /\
    dict_get "refund_id" d' = Some (VStr refund_id2) /\
    dict_get "original_transaction_id" d' = Some (VStr transaction_id) /\
    (refund_id2 <> refund_id -> get_transaction self' refund_id = Some r).
Proof.
  intros Hr Hd refund_id2.
  pose proof (lookup_lt_Some _ _ _ Hd) as Hlt.
  pose proof (refund_success self h refund_id src2 processed_at2 r _
                (VStatus SUCCESS) amount currency customer_id Hr Hd
                eq_refl eq_refl eq_refl eq_refl eq_refl) as H.
  cbv zeta in H. fold refund_id2 in H.
  eexists (length h), _, _, _, _. split; [exact H|]. split_and!.
  - rewrite list_lookup_insert_ne by lia. now apply list_lookup_middle.
  - reflexivity.
  - reflexivity.
  - apply list_lookup_insert_eq. rewrite length_app. lia.
  - apply mark_refunded_link.
  - apply mark_refunded_link.
  - now rewrite mark_refunded_frame by discriminate.
  - intros Hne. unfold get_transaction in *. cbn [transactions].
    now rewrite dict_get_set_ne.
Qed.

Lemma refund_of_refund_witness :
  exists (r2 : loc) (self' : PaymentProcessor) (h' : heap) (d' : dict value),
    refund_transaction paid_refunded.1 paid_refunded.2
      "txn_20240101120001_00000000000000b2" src3 "2024-01-01T12:00:02"
    = Ok (Some r2, self', h') /\
    get_transaction self' "txn_20240101120001_00000000000000b2" = Some 1 /\
    h' !! 1 = Some d' /\
    dict_get "refund_id" d' = Some (VStr "txn_20240101120002_00000000000000c3").
Proof.
  destruct (refund_of_refund paid_refunded.1 paid_refunded.2
              "txn_20240101120000_00000000000000a1"
              "txn_20240101120001_00000000000000b2" (VFloat 25) (VStr "USD")
              (VStr "cust_1") "2024-01-01T12:00:01" 1 src3 "2024-01-01T12:00:02"
              eq_refl eq_refl)
    as (r2 & self' & h' & refund2 & d' & H1 & _ & _ & _ & H2 & _ & H3 & _ & H4).
  exists r2, self', h', d'. split_and!; try assumption.
  apply H4. discriminate.
Defined.

Lemma refund_link_ok_step s s' :
  step s s' ->
  (forall l d, s.2 !! l = Some d -> refund_link_ok d) ->
  forall l d, s'.2 !! l = Some d -> refund_link_ok d.
Proof.
  intros [self h token amount currency customer_id description token_data src u
            processed_at tx self' h' H
         |self h transaction_id src processed_at r self' h' H] Hinv l d Hl;
    simpl in *.
  - apply process_payment_record in H as (d0 & _ & _ & -> & _ & Ed).
    apply lookup_app_Some in Hl as [Hl|[_ Hl]]; [now apply (Hinv l)|].
    destruct (l - length h) as [|n]; [|now destruct n].
    injection Hl as <-. left. now subst d0.
  - destruct (refund_cases _ _ _ _ _ _ _ _ H)
      as [(_ & _ & ->)|[(_ & _ & ->)|H']].
    + now apply (Hinv l).
    + apply lookup_app_Some in Hl as [Hl|[_ Hl]]; [now apply (Hinv l)|].
      destruct (l - length h) as [|n]; [|now destruct n].
      injection Hl as <-. now left.
    + destruct H' as (tx & d0 & status & amount & currency & customer_id & _ & Hd0
                      & Hs & Heq & _ & _ & _ & _ & _ & ->).
      pose proof (lookup_lt_Some _ _ _ Hd0) as Hlt.
      destruct (decide (tx = l)) as [->|Hne].
      * rewrite list_lookup_insert_eq in Hl by (rewrite length_app; lia).
        injection Hl as <-. right. split_and!.
        -- apply mark_refunded_link.
        -- eexists. apply mark_refunded_link.
        -- exists status. split; [|exact Heq].
           now rewrite mark_refunded_frame by discriminate.
      * rewrite list_lookup_insert_ne in Hl by done.
        apply lookup_app_Some in Hl as [Hl|[_ Hl]]; [now apply (Hinv l)|].
        destruct (l - length h) as [|n]; [|now destruct n].
        injection Hl as <-. now left.
Qed.

(** X6: in every state the processor reaches, a record is flagged refunded
    only if its status is success, and the flag is then [True] with the id
    of a refund beside it: a failed or pending transaction is never marked
    refunded. *)
Theorem refunded_only_if_success s :
  reachable s ->
  forall l d, s.2 !! l = Some d -> refund_link_ok d.
Proof.
  unfold reachable. intros H.
  assert (Hgen : forall s0, rtc step s0 s ->
            (forall l d, s0.2 !! l = Some d -> refund_link_ok d) ->
            forall l d, s.2 !! l = Some d -> refund_link_ok d).
  { clear H. intros s0 H. induction H as [s|s1 s2 s3 H12 _ IH]; [done|].
    intros Hinv. apply IH. now apply (refund_link_ok_step s1). }
  apply (Hgen _ H). intros l d Hl. now destruct l.
Qed.

Lemma refunded_only_if_success_witness :
  reachable paid_refunded /\
  forall l d, paid_refunded.2 !! l = Some d -> refund_link_ok d.
Proof.
  assert (H : reachable paid_refunded).
  { unfold reachable.
    apply (rtc_l _ _ (paid.1.2, paid.2)).
    - now apply (step_process_payment _ _ "tok_1" 25%float "USD" "cust_1" None
                   None src1 0.5%float "2024-01-01T12:00:00" 0).
    - apply rtc_once.
      now apply (step_refund_transaction _ _
                   "txn_20240101120000_00000000000000a1" src2
                   "2024-01-01T12:00:01" (Some 1)). }
  split; [exact H|exact (refunded_only_if_success _ H)].
Defined.

(** X7: in every state the processor reaches, [refund_transaction] and
    [get_customer_transactions] return: no stored record lacks a field they
    read. *)
Theorem processor_never_raises s :
  reachable s ->
  (forall customer_id, exists found,
     get_customer_transactions s.1 s.2 customer_id = Ok found) /\
  (forall transaction_id src processed_at, exists r self' h',
     refund_transaction s.1 s.2 transaction_id src processed_at
     = Ok (r, self', h')).
Proof.
  intros H. pose proof (store_ok_steps _ _ H eq_refl) as Hok. split.
  - intros customer_id. eexists. now apply get_customer_transactions_filter.
  - intros transaction_id src processed_at.
    now apply refund_transaction_returns.
Qed.

Lemma processor_never_raises_witness :
  reachable (paid.1.2, paid.2) /\
  exists found, get_customer_transactions paid.1.2 paid.2 "cust_1" = Ok found.
Proof.
  assert (H : reachable (paid.1.2, paid.2)).
  { apply rtc_once.
    now apply (step_process_payment _ _ "tok_1" 25%float "USD" "cust_1" None
                 None src1 0.5%float "2024-01-01T12:00:00" 0). }
  split; [exact H|].
  exact (proj1 (processor_never_raises _ H) "cust_1").
Defined.

End ProcessorMore.

(** ** Refunds in the lists of customers *)

Section RefundLists.

Implicit Types (self : PaymentProcessor) (h : heap) (d : dict value).

(** X8: a refund stored under a new id is added, last, to the list of the
    customer of the original, and to the list of no other customer. *)
Theorem refund_in_customer_lists self h transaction_id src processed_at tx d
    status customer :
  store_ok self h = true ->
  get_transaction self transaction_id = Some tx ->
  h !! tx = Some d ->
  dict_get "status" d = Some status ->
  eq_status status SUCCESS = true ->
  dict_get "customer_id" d = Some (VStr customer) ->
  get_transaction self (_generate_transaction_id src) = None ->
  exists r self' h' before,
    refund_transaction self h transaction_id src processed_at
      = Ok (Some r, self', h') /\
    get_customer_transactions self h customer = Ok before /\
    get_customer_transactions self' h' customer = Ok (before ++ [r]) /\
    (forall other, other <> customer ->
       get_customer_transactions self' h' other
       = get_customer_transactions self h other).
Proof.
  intros Hok Htx Hd Hs Heq Hcu Hfresh.
  destruct (proj1 (store_ok_spec _ _) Hok _ _ (dict_get_elem _ _ _ Htx))
    as (d0 & Hd0 & Hrec).
  assert (d0 = d) as -> by congruence.
  unfold record_ok in Hrec. rewrite Hcu, Hs in Hrec.
  destruct status; try discriminate.
  destruct (dict_get "amount" d) as [amount|] eqn:Ha; [|discriminate].
  destruct (dict_get "currency" d) as [currency|] eqn:Hc; [|discriminate].
  pose proof (refund_success _ _ _ src processed_at _ _ _ _ _ _
                Htx Hd Hs Heq Ha Hc Hcu) as Href.
  cbv zeta in Href.
  pose proof (store_ok_refund _ _ _ _ _ _ _ _ Hok Href) as Hok'.
  pose proof (lookup_lt_Some _ _ _ Hd) as Hlt.
  set (refund_id := _generate_transaction_id src) in *.
  set (refund := refund_record refund_id transaction_id amount currency
                   (VStr customer) processed_at) in *.
  set (h' := <[tx := mark_refunded refund_id d]> (h ++ [refund])) in *.
  assert (Hr : h' !! length h = Some refund).
  { unfold h'. rewrite list_lookup_insert_ne by lia. now apply list_lookup_middle. }
  assert (Hall : forall c,
            get_customer_transactions
              {| transactions := dict_set refund_id (length h) (transactions self) |}
              h' c
            = Ok (List.filter (of_customer h c) (dict_values (transactions self))
                  ++ (if String.eqb customer c then [length h] else []))).
  { intros c.
    rewrite (customers_after_append self h _ h' refund_id (length h) c
               Hok Hok' Hfresh eq_refl).
    - unfold of_customer. now rewrite Hr.
    - intros l d1 Hl.
      destruct (refund_frame _ _ _ _ _ _ _ _ _ _ Href Hl) as (d' & H1 & H2 & _).
      now exists d'. }
  eexists (length h), _, h', _. split; [exact Href|]. split_and!.
  - now apply get_customer_transactions_filter.
  - rewrite Hall. now rewrite String.eqb_refl.
  - intros other Hne. rewrite Hall.
    apply not_eq_sym, String.eqb_neq in Hne. rewrite Hne, app_nil_r.
    symmetry. now apply get_customer_transactions_filter.
Qed.

Lemma refund_in_customer_lists_witness :
  exists (r : loc) (self' : PaymentProcessor) (h' : heap),
    refund_transaction paid.1.2 paid.2 "txn_20240101120000_00000000000000a1"
      src2 "2024-01-01T12:00:01" = Ok (Some r, self', h') /\
    get_customer_transactions self' h' "cust_1" = Ok ([0] ++ [r]).
Proof.
  destruct (refund_in_customer_lists paid.1.2 paid.2
              "txn_20240101120000_00000000000000a1" src2 "2024-01-01T12:00:01"
              0 _ (VStatus SUCCESS) "cust_1"
              eq_refl eq_refl eq_refl eq_refl eq_refl eq_refl eq_refl)
    as (r & self' & h' & before & H1 & H2 & H3 & _).
  exists r, self', h'. split; [exact H1|].
  injection H2 as <-. exact H3.
Defined.

End RefundLists.

Lemma identify_card_type_by_prefix_aux (card_number : string) :
  _identify_card_type card_number = card_type_by_prefix (clean card_number).
Proof.
  unfold _identify_card_type, card_type_by_prefix.
  now rewrite match_visa, match_mastercard, match_amex, match_discover.
Qed.

(** ** The validator of card numbers, and the tokenizer behind it *)

Section Validator.

Lemma all_digits_substring n m s :
  models.all_digits s = true ->
  models.all_digits (String.substring n m s) = true.
Proof.
  revert n m. induction s as [|c s IH]; intros [|n] [|m];
    cbn [String.substring models.all_digits]; try reflexivity.
  - intros [-> H]%andb_true_iff. now rewrite IH.
  - intros [_ H]%andb_true_iff. now apply IH.
  - intros [_ H]%andb_true_iff. now apply IH.
Qed.

Lemma isdigit_all_digits s : models.isdigit s = true -> models.all_digits s = true.
Proof. now destruct s. Qed.

Lemma digit_no_separator s : models.all_digits s = true -> no_separator s = true.
Proof.
  induction s as [|c s IH]; [reflexivity|].
  cbn [models.all_digits no_separator]. intros [Hc H]%andb_true_iff.
  rewrite (IH H), andb_true_r.
  destruct c as [[] [] [] [] [] [] [] []]; try reflexivity; discriminate Hc.
Qed.

Lemma validate_card_number_accepted v n :
  models.validate_card_number v = Ok n ->
  n = clean v /\ models.isdigit (clean v) = true /\
  (String.length (clean v) = 15 \/ String.length (clean v) = 16).
Proof.
  unfold models.validate_card_number. fold spaces_or_dash. fold (clean v).
  destruct (models.isdigit (clean v)); [|discriminate]. cbn [negb].
  destruct (String.length (clean v) =? 15) eqn:H15.
  - intros [= <-]. apply Nat.eqb_eq in H15. now split_and!; [| |left].
  - destruct (String.length (clean v) =? 16) eqn:H16; [|discriminate].
    intros [= <-]. apply Nat.eqb_eq in H16. now split_and!; [| |right].
Qed.

(** X9: the validator accepts a card number exactly when, whitespace and
    dashes removed, it is all digits and 15 or 16 long, and answers the
    cleaned number; it raises [ValueError] otherwise.  What it answers is
    all digits, 15 or 16 long, and passes the validator unchanged. *)
Theorem validate_card_number_spec (v : string) :
  let n := clean v in
  (models.isdigit n = true /\
   (String.length n = 15 \/ String.length n = 16) ->
     models.validate_card_number v = Ok n /\
     models.all_digits n = true /\
     models.validate_card_number n = Ok n) /\
  (models.isdigit n = false \/
   (String.length n <> 15 /\ String.length n <> 16) ->
     models.validate_card_number v = Raise ValueError) /\
  (forall n', models.validate_card_number v = Ok n' ->
     n' = n /\ models.isdigit n = true /\
     (String.length n = 15 \/ String.length n = 16)).
Proof.
  intros n.
  assert (Hv : forall w, models.validate_card_number w
             = if negb (models.isdigit (clean w)) then Raise ValueError
               else if negb ((String.length (clean w) =? 15)
                             || (String.length (clean w) =? 16))
                    then Raise ValueError else Ok (clean w)) by reflexivity.
  split_and!.
  - intros [Hd Hlen].
    assert (Hn : clean n = n)
      by now apply clean_id, digit_no_separator, isdigit_all_digits.
    rewrite !Hv, Hn. fold n. rewrite Hd. cbn [negb].
    assert ((String.length n =? 15) || (String.length n =? 16) = true) as ->
      by (destruct Hlen as [-> | ->]; reflexivity).
    split_and!; try reflexivity. now apply isdigit_all_digits.
  - rewrite Hv. fold n. intros [-> |[H15 H16]]; [reflexivity|].
    apply Nat.eqb_neq in H15, H16. rewrite H15, H16.
    now destruct (negb (models.isdigit n)).
  - intros n'. rewrite Hv. fold n.
    destruct (models.isdigit n); [|discriminate]. cbn [negb].
    destruct (String.length n =? 15) eqn:H15.
    + intros [= <-]. apply Nat.eqb_eq in H15. now split_and!; [| |left].
    + destruct (String.length n =? 16) eqn:H16; [|discriminate].
      intros [= <-]. apply Nat.eqb_eq in H16. now split_and!; [| |right].
Qed.

Lemma validate_card_number_spec_witness :
  models.validate_card_number "4532-0151-1283-0366" = Ok "4532015112830366" /\
  models.validate_card_number "4532015112830366" = Ok "4532015112830366" /\
  models.validate_card_number "1234" = Raise ValueError.
Proof.
  pose proof (validate_card_number_spec "4532-0151-1283-0366") as (H1 & _).
  pose proof (validate_card_number_spec "1234") as (_ & H2 & _).
  destruct (H1 (conj eq_refl (or_intror eq_refl))) as (Ha & _ & Hb).
  split_and!; [exact Ha|exact Hb|].
  apply H2. right. split; discriminate.
Defined.

(** X10: for a card number the validator has passed, the tokenizer answers
    and stores as last four digits exactly four digits, the last four of
    the cleaned number that was submitted, and the card type the prefix of
    the validated number gives. *)
Theorem tokenize_validated_card sha256_hexdigest isoformat self h v card_number
    card_holder expiry_month expiry_year cvv e info self' h' :
  models.validate_card_number v = Ok card_number ->
  tokenize_card sha256_hexdigest isoformat self h card_number card_holder
    expiry_month expiry_year cvv e = (info, self', h') ->
  exists four,
    dict_get "last_four_digits" info = Some (VStr four) /\
    String.length four = 4 /\
    models.all_digits four = true /\
    four = str_last 4 (clean v) /\
    dict_get "card_type" info = Some (VStr (card_type_by_prefix card_number)).
Proof.
  intros Hv (record & _ & _ & _ & -> & _)%tokenize_card_record.
  destruct (validate_card_number_accepted _ _ Hv) as (-> & Hd & Hlen).
  exists (str_last 4 (clean v)). split_and!.
  - reflexivity.
  - unfold str_last. rewrite substring_length. destruct Hlen as [-> | ->]; reflexivity.
  - unfold str_last. now apply all_digits_substring, isdigit_all_digits.
  - reflexivity.
  - cbn [dict_get String.eqb Ascii.eqb Bool.eqb].
    rewrite identify_card_type_by_prefix_aux. now rewrite clean_idempotent.
Qed.

Lemma tokenize_validated_card_witness :
  exists four,
    dict_get "last_four_digits" tokenized.1.1 = Some (VStr four) /\
    String.length four = 4 /\
    four = str_last 4 (clean "4532-0151-1283-0366").
Proof.
  destruct (tokenize_validated_card sample_hexdigest sample_isoformat
              tokenizer.__init__ [] "4532-0151-1283-0366" "4532015112830366"
              "A. Holder" 12%Z 2030%Z "123" sample_entropy _ _ _
              eq_refl eq_refl) as (four & H1 & H2 & _ & H4 & _).
  now exists four.
Defined.

End Validator.

(** ** The life of a token *)

Section TokenLife.

Variable sha256_hexdigest : string -> string.
Variable isoformat : datetime -> string.
Variable fromisoformat : string -> option datetime.

Implicit Types (self : PaymentTokenizer) (h : heap) (d : dict value).

(** X11: [tokenize_card] stores the new record under the new token and
    touches nothing else: every object stays as it was, every other token
    keeps its record, and a token that was in use before now leads to the
    new record.  The record is flagged valid and holds neither the card
    number nor the CVV under a key of that name. *)
Theorem tokenize_card_frame self h card_number card_holder expiry_month
    expiry_year cvv e info self' h' :
  tokenize_card sha256_hexdigest isoformat self h card_number card_holder
    expiry_month expiry_year cvv e = (info, self', h') ->
  let token := _generate_token sha256_hexdigest isoformat card_number e in
  exists l record,
    h !! l = None /\
    h' !! l = Some record /\
    get_token_info self' token = Some l /\
    dict_get "is_valid" record = Some (VBool true) /\
    dict_get "card_number" record = None /\
    dict_get "cvv" record = None /\
    (forall l' d, h !! l' = Some d -> h' !! l' = Some d) /\
    (forall other, other <> token ->
       get_token_info self' other = get_token_info self other).
Proof.
  intros (record & -> & Hl & Htok & _ & Hrec)%tokenize_card_record token.
  exists (length h), record. unfold get_token_info. rewrite Htok. split_and!.
  - now apply lookup_ge_None_2.
  - exact Hl.
  - apply dict_get_set_eq.
  - now subst record.
  - now subst record.
  - now subst record.
  - intros l' d Hd. now apply lookup_app_l_Some.
  - intros other Hne. now apply dict_get_set_ne.
Qed.

Lemma tokenize_card_record_fields self h card_number card_holder expiry_month
    expiry_year cvv e info self' h' :
  tokenize_card sha256_hexdigest isoformat self h card_number card_holder
    expiry_month expiry_year cvv e = (info, self', h') ->
  let token := _generate_token sha256_hexdigest isoformat card_number e in
  exists record,
    h' !! length h = Some record /\
    get_token_info self' token = Some (length h) /\
    dict_get "token" info = Some (VStr token) /\
    dict_get "token" record = Some (VStr token) /\
    truthy (default (VBool false) (dict_get "is_valid" record)) = true /\
    dict_get "expires_at" record
    = Some (VStr (isoformat (now_expiry e + timedelta_hours 24)%Z)).
Proof.
  intros (record & -> & Hl & Htok & -> & Hrec)%tokenize_card_record token.
  exists record. unfold get_token_info. rewrite Htok, dict_get_set_eq.
  split_and!; try reflexivity; try exact Hl; now subst record.
Qed.

(** X12: a token is good for twenty-four hours from the clock reading of
    its tokenization, where the text of the expiry reads back as the
    instant it was written from: up to and at that instant [validate_token]
    answers the record and changes nothing; after it, it answers [None],
    and from then on at every reading of the clock, an earlier one too. *)
Theorem token_valid_for_24_hours self h card_number card_holder expiry_month
    expiry_year cvv e info self' h' utcnow :
  tokenize_card sha256_hexdigest isoformat self h card_number card_holder
    expiry_month expiry_year cvv e = (info, self', h') ->
  let token := _generate_token sha256_hexdigest isoformat card_number e in
  let expiry := (now_expiry e + 86400000000)%Z in
  fromisoformat (isoformat expiry) = Some expiry ->
  ((utcnow <= expiry)%Z ->
     exists l record,
       validate_token fromisoformat self' h' token utcnow = Ok (Some l, h') /\
       h' !! l = Some record /\
       dict_get "token" record = Some (VStr token)) /\
  ((expiry < utcnow)%Z ->
     exists h'',
       validate_token fromisoformat self' h' token utcnow = Ok (None, h'') /\
       forall later,
         validate_token fromisoformat self' h'' token later = Ok (None, h'')).
Proof.
  intros Htok token expiry Hparse.
  destruct (tokenize_card_record_fields _ _ _ _ _ _ _ _ _ _ _ Htok)
    as (record & Hl & Hget & _ & Htoken & Hvalid & Hexp).
  fold token in Hget, Htoken.
  change (now_expiry e + timedelta_hours 24)%Z with expiry in Hexp.
  pose proof (validate_token_checked fromisoformat self' h' token utcnow _ _ _ _
                Hget Hl Hvalid Hexp Hparse) as Hcheck.
  split.
  - intros Hle. exists (length h), record.
    apply Z.ltb_ge in Hle. rewrite Hle in Hcheck. now split_and!.
  - intros Hlt. eexists. apply Z.ltb_lt in Hlt. rewrite Hlt in Hcheck.
    split; [exact Hcheck|]. intros later.
    apply (validate_token_invalid fromisoformat self' _ token later (length h)
             (dict_set "is_valid" (VBool false) record) Hget).
    + apply list_lookup_insert_eq. now apply lookup_lt_Some in Hl.
    + now rewrite dict_get_set_eq.
Qed.

Lemma validate_token_changes self h token utcnow r h' :
  validate_token fromisoformat self h token utcnow = Ok (r, h') ->
  length h' = length h /\
  forall l d,
    h !! l = Some d ->
    exists d',
      h' !! l = Some d' /\
      (forall k, k <> "is_valid" -> dict_get k d' = dict_get k d) /\
      (truthy (default (VBool false) (dict_get "is_valid" d')) = true -> d' = d) /\
      (get_token_info self token <> Some l -> d' = d).
Proof.
  unfold validate_token, get_token_info, deref, getitem.
  destruct (dict_get token (tokens self)) as [l0|].
  2:{ intros [= <- <-]. split; [done|]. intros l d Hd. now exists d. }
  destruct (h !! l0) as [d0|] eqn:Hd0; [|discriminate]. cbn [mbind result_bind].
  destruct (truthy _) eqn:Hv; cbn [negb].
  2:{ intros [= <- <-]. split; [done|]. intros l d Hd. now exists d. }
  destruct (dict_get "expires_at" d0) as [text|]; [|discriminate].
  cbn [mbind result_bind].
  destruct (parse_datetime fromisoformat text) as [expires_at|]; [|discriminate].
  cbn [mbind result_bind].
  destruct (expires_at <? utcnow)%Z.
  2:{ intros [= <- <-]. split; [done|]. intros l d Hd. now exists d. }
  intros [= <- <-]. rewrite (setitem_lookup_eq_insert _ _ _ _ _ Hd0).
  split; [apply length_insert|]. intros l d Hd.
  destruct (decide (l0 = l)) as [->|Hne].
  - assert (d0 = d) as -> by congruence.
    exists (dict_set "is_valid" (VBool false) d). split_and!.
    + apply list_lookup_insert_eq. now apply lookup_lt_Some in Hd.
    + intros k Hk. now apply dict_get_set_ne.
    + now rewrite dict_get_set_eq.
    + congruence.
  - exists d. split_and!; try done. now rewrite list_lookup_insert_ne.
Qed.

(** X13: [validate_token] changes at most the validity flag of the record of
    the token it is asked about, and never sets a flag: a record that is
    valid afterwards is as it was before. *)
Theorem validate_token_frame self h token utcnow r h' :
  validate_token fromisoformat self h token utcnow = Ok (r, h') ->
  length h' = length h /\
  forall l d,
    h !! l = Some d ->
    exists d',
      h' !! l = Some d' /\
      (forall k, k <> "is_valid" -> dict_get k d' = dict_get k d) /\
      (truthy (default (VBool false) (dict_get "is_valid" d')) = true -> d' = d) /\
      (get_token_info self token <> Some l -> d' = d).
Proof. apply validate_token_changes. Qed.

End TokenLife.

Lemma token_valid_for_24_hours_witness :
  (exists (l : loc) (record : dict value),
     validate_token sample_fromisoformat tokenized.1.2 tokenized.2
       "tok_9f86d081884c7d659a2feaa0c55ad015" 86400000000%Z
     = Ok (Some l, tokenized.2) /\
     tokenized.2 !! l = Some record) /\
  exists h'' : heap,
    validate_token sample_fromisoformat tokenized.1.2 tokenized.2
      "tok_9f86d081884c7d659a2feaa0c55ad015" 86400000001%Z = Ok (None, h'') /\
    validate_token sample_fromisoformat tokenized.1.2 h''
      "tok_9f86d081884c7d659a2feaa0c55ad015" 0%Z = Ok (None, h'').
Proof.
  split.
  - destruct (proj1 (token_valid_for_24_hours sample_hexdigest sample_isoformat
                sample_fromisoformat tokenizer.__init__ [] "4532015112830366"
                "A. Holder" 12%Z 2030%Z "123" sample_entropy _ _ _
                86400000000%Z eq_refl eq_refl) ltac:(discriminate))
      as (l & record & H1 & H2 & _).
    now exists l, record.
  - destruct (proj2 (token_valid_for_24_hours sample_hexdigest sample_isoformat
                sample_fromisoformat tokenizer.__init__ [] "4532015112830366"
                "A. Holder" 12%Z 2030%Z "123" sample_entropy _ _ _
                86400000001%Z eq_refl eq_refl) eq_refl)
      as (h'' & H1 & H2).
    exists h''. split; [exact H1|exact (H2 0%Z)].
Defined.

Lemma tokenize_card_frame_witness :
  exists (l : loc) (record : dict value),
    tokenized.2 !! l = Some record /\
    get_token_info tokenized.1.2 "tok_9f86d081884c7d659a2feaa0c55ad015" = Some l /\
    dict_get "cvv" record = None.
Proof.
  destruct (tokenize_card_frame sample_hexdigest sample_isoformat
              tokenizer.__init__ [] "4532015112830366" "A. Holder" 12%Z 2030%Z
              "123" sample_entropy _ _ _ eq_refl)
    as (l & record & _ & H1 & H2 & _ & _ & H3 & _).
  now exists l, record.
Defined.

Lemma validate_token_frame_witness :
  exists (h' : heap) (d' : dict value),
    validate_token sample_fromisoformat tokenized.1.2 tokenized.2
      "tok_9f86d081884c7d659a2feaa0c55ad015" 86400000001%Z = Ok (None, h') /\
    h' !! 0 = Some d' /\
    dict_get "last_four_digits" d' = Some (VStr "0366").
Proof.
  set (h' := setitem tokenized.2 0 "is_valid" (VBool false)).
  assert (Heq : validate_token sample_fromisoformat tokenized.1.2 tokenized.2
                  "tok_9f86d081884c7d659a2feaa0c55ad015" 86400000001%Z
                = Ok (None, h')) by reflexivity.
  destruct (proj2 (validate_token_frame sample_fromisoformat tokenized.1.2
                     tokenized.2 "tok_9f86d081884c7d659a2feaa0c55ad015"
                     86400000001%Z None h' Heq) 0 _ eq_refl)
    as (d' & H1 & H2 & _).
  exists h', d'. split; [exact Heq|]. split; [exact H1|].
  now rewrite H2.
Defined.

(** ** The routes of main.py *)

Section Routes.

Variable fromisoformat : string -> option datetime.

(** X14: the payment route records a payment only for a token that
    [validate_token] passes.  It then answers 201 with the fields of the
    transaction it stored, made with the validated record as metadata.  In
    every other case it answers 401 "Invalid or expired token", or 400 for
    an exception, and leaves the processor as it was and no new object on
    the heap. *)
Theorem payment_route_needs_valid_token tk pr h request utcnow src u
    processed_at answer pr' h' :
  main.process_payment fromisoformat tk pr h request utcnow src u processed_at
  = (answer, pr', h') ->
  (exists l record tx transaction body,
     validate_token fromisoformat tk h (main.token request) utcnow
       = Ok (Some l, h) /\
     h !! l = Some record /\
     process_payment pr h (main.token request) (main.amount request)
       (main.currency request) (main.customer_id request)
       (main.description request) (Some record) src u processed_at
       = (tx, pr', h') /\
     h' !! tx = Some transaction /\
     answer = main.Response 201 body /\
     dict_get "token" body = Some (VStr (main.token request)) /\
     (forall k, k <> "token" -> k <> "description" -> k <> "card_info" ->
        dict_get k body = dict_get k transaction)) \/
  (pr' = pr /\
   length h' = length h /\
   (answer = main.HTTPException 401 (main.Text "Invalid or expired token") \/
    exists e, answer = main.HTTPException 400
                         (main.Failure "Payment processing failed: " e))).
Proof.
  unfold main.process_payment, main.process_payment_try.
  destruct (validate_token fromisoformat tk h (main.token request) utcnow)
    as [[[l|] h1]|e] eqn:Hv.
  - apply validate_token_some in Hv as Hsome.
    destruct Hsome as (_ & -> & record & text & expires_at & Hrec & Hvalid & _).
    rewrite Hrec.
    destruct record as [|kv record]; [discriminate|].
    destruct (process_payment pr h _ _ _ _ _ _ _ _ _) as [[tx pr2] h2] eqn:Hpay.
    destruct (process_payment_record _ _ _ _ _ _ _ _ _ _ _ _ _ _ Hpay)
      as (transaction & Htx & _ & _ & _ & Ed).
    rewrite (deref_Some _ _ _ Htx). cbn [mbind result_bind]. subst transaction.
    cbn [getitem dict_get String.eqb Ascii.eqb Bool.eqb mbind result_bind].
    intros H. injection H as <- <- <-. left.
    eexists l, (kv :: record), tx, _, _.
    split; [reflexivity|]. split; [exact Hrec|]. split; [exact Hpay|].
    split; [exact Htx|]. split; [reflexivity|]. split; [reflexivity|].
    intros k Hk1 Hk2 Hk3. cbn [dict_get].
    repeat match goal with
           | |- context [String.eqb ?a k] =>
               destruct (String.eqb_spec a k) as [<-|?];
               [first [reflexivity|congruence]|]
           end.
    reflexivity.
  - intros [= <- <- <-]. right.
    apply (validate_token_changes fromisoformat) in Hv as [Hlen _].
    split_and!; [reflexivity|exact Hlen|now left].
  - intros [= <- <- <-]. right. split_and!; [reflexivity|reflexivity|].
    right. now exists e.
Qed.

(** X15: the token route answers 404 for an unknown token, and for a token
    [tokenize_card] has stored the six fields meant for the outside, as
    stored; the hash of the card number, the card holder and the expiry of
    the card are not in the answer. *)
Theorem token_route_hides_card_data sha256_hexdigest isoformat tk h card_number
    card_holder expiry_month expiry_year cvv e info tk' h' :
  tokenize_card sha256_hexdigest isoformat tk h card_number card_holder
    expiry_month expiry_year cvv e = (info, tk', h') ->
  let token := _generate_token sha256_hexdigest isoformat card_number e in
  exists body record,
    main.get_token_info tk' h' token = Ok (main.Response 200 body) /\
    h' !! length h = Some record /\
    map fst body = ["token"; "last_four_digits"; "card_type"; "expires_at";
                    "created_at"; "is_valid"] /\
    (forall k v, dict_get k body = Some v -> dict_get k record = Some v) /\
    dict_get "card_number_hash" record = Some (VStr (sha256_hexdigest card_number)) /\
    dict_get "card_holder" record = Some (VStr card_holder) /\
    dict_get "card_number_hash" body = None /\
    dict_get "card_holder" body = None /\
    dict_get "expiry_month" body = None /\
    dict_get "expiry_year" body = None /\
    (forall unknown, get_token_info tk' unknown = None ->
       main.get_token_info tk' h' unknown
       = Ok (main.HTTPException 404 (main.Text "Token not found"))).
Proof.
  intros (record & -> & Hl & Htok & _ & Hrec)%tokenize_card_record token.
  unfold main.get_token_info, get_token_info. rewrite Htok, dict_get_set_eq.
  rewrite (deref_Some _ _ _ Hl). cbn [mbind result_bind]. subst record.
  cbn [getitem dict_get String.eqb Ascii.eqb Bool.eqb mbind result_bind].
  eexists _, _. split; [reflexivity|]. split; [exact Hl|].
  split_and!; try reflexivity.
  - intros k v. cbn [dict_get].
    repeat match goal with
           | |- context [String.eqb ?a k] =>
               destruct (String.eqb_spec a k) as [<-|?];
               [cbn [String.eqb Ascii.eqb Bool.eqb];
                first [exact (fun H => H)|intros H; discriminate H]|]
           end.
    intros H. discriminate H.
  - intros unknown Hun. now rewrite Hun.
Qed.

End Routes.

Lemma payment_route_needs_valid_token_witness :
  (exists (pr' : PaymentProcessor) (h' : heap) (body : dict value),
     main.process_payment sample_fromisoformat tokenized.1.2
       payment_processor.__init__ tokenized.2 sample_request 3600000000%Z src1
       0.5%float "2024-01-01T13:00:00" = (main.Response 201 body, pr', h') /\
     dict_get "amount" body = Some (VFloat 99.99%float)) /\
  main.process_payment sample_fromisoformat tokenized.1.2
    payment_processor.__init__ tokenized.2 sample_request 86400000001%Z src1
    0.5%float "2024-01-02T12:00:01"
  = (main.HTTPException 401 (main.Text "Invalid or expired token"),
     payment_processor.__init__,
     setitem tokenized.2 0 "is_valid" (VBool false)).
Proof.
  split.
  - destruct (payment_route_needs_valid_token sample_fromisoformat tokenized.1.2
                payment_processor.__init__ tokenized.2 sample_request
                3600000000%Z src1 0.5%float "2024-01-01T13:00:00" _ _ _ eq_refl)
      as [(l & record & tx & transaction & body & _ & _ & Hpay & Htx & Hbody & _ & H)
         |(_ & _ & [H|[e H]])]; try discriminate H.
    eexists _, _, body. split.
    + now rewrite <- Hbody.
    + rewrite H by discriminate.
      apply process_payment_record in Hpay as (d & Hd & _ & _ & _ & ->).
      rewrite Htx in Hd. now injection Hd as ->.
  - destruct (payment_route_needs_valid_token sample_fromisoformat tokenized.1.2
                payment_processor.__init__ tokenized.2 sample_request
                86400000001%Z src1 0.5%float "2024-01-02T12:00:01" _ _ _ eq_refl)
      as [(l & record & tx & transaction & body & H & _)|_];
      [discriminate H|reflexivity].
Defined.

Lemma token_route_hides_card_data_witness :
  exists body : dict value,
    main.get_token_info tokenized.1.2 tokenized.2
      "tok_9f86d081884c7d659a2feaa0c55ad015" = Ok (main.Response 200 body) /\
    dict_get "card_number_hash" body = None /\
    dict_get "card_holder" body = None.
Proof.
  destruct (token_route_hides_card_data sample_hexdigest sample_isoformat
              tokenizer.__init__ [] "4532015112830366" "A. Holder" 12%Z 2030%Z
              "123" sample_entropy _ _ _ eq_refl)
    as (body & record & H1 & _ & _ & _ & _ & _ & H2 & H3 & _).
  now exists body.
Defined.

(** ** The card information of a transaction *)

Section CardInfo.

(** X4: the card information of a transaction has the two placeholders
    "XXXX" and "Unknown" when no token metadata is passed or an empty one;
    with a metadata dictionary that is not empty it has what the dictionary
    holds under [last_four_digits] and [card_type], and [None] for a key
    the dictionary lacks, not the placeholder. *)
Theorem process_payment_card_info self h token amount currency customer_id
    description token_data src u processed_at tx self' h' :
  process_payment self h token amount currency customer_id description
    token_data src u processed_at = (tx, self', h') ->
  exists d card_info,
    h' !! tx = Some d /\
    dict_get "card_info" d = Some (VDict card_info) /\
    map fst card_info = ["last_four"; "card_type"] /\
    (token_data = None \/ token_data = Some [] ->
       dict_get "last_four" card_info = Some (VStr "XXXX") /\
       dict_get "card_type" card_info = Some (VStr "Unknown")) /\
    (forall metadata,
       token_data = Some metadata -> metadata <> [] ->
       dict_get "last_four" card_info
       = Some (default VNone (dict_get "last_four_digits" metadata)) /\
       dict_get "card_type" card_info
       = Some (default VNone (dict_get "card_type" metadata))).
Proof.
  intros (d & Hd & _ & _ & _ & ->)%process_payment_record.
  eexists _, _. split; [exact Hd|]. split; [reflexivity|]. split_and!.
  - reflexivity.
  - now intros [-> | ->].
  - intros [|kv metadata] -> Hne; [done|]. now split.
Qed.

Lemma process_payment_card_info_witness :
  exists (d card_info : dict value),
    (process_payment payment_processor.__init__ [] "tok_1" 25%float "USD"
       "cust_1" None (Some [("last_four_digits", VStr "0366")]) src1 0.5%float
       "2024-01-01T12:00:00").2 !! 0 = Some d /\
    dict_get "card_info" d = Some (VDict card_info) /\
    dict_get "last_four" card_info = Some (VStr "0366") /\
    dict_get "card_type" card_info = Some VNone.
Proof.
  destruct (process_payment_card_info payment_processor.__init__ [] "tok_1"
              25%float "USD" "cust_1" None
              (Some [("last_four_digits", VStr "0366")]) src1 0.5%float
              "2024-01-01T12:00:00" _ _ _ eq_refl)
    as (d & card_info & H1 & H2 & _ & _ & H3).
  exists d, card_info. split; [exact H1|]. split; [exact H2|].
  exact (H3 _ eq_refl ltac:(discriminate)).
Defined.

End CardInfo.
